(** * GWAS Trait Extraction Viewer: completeness scorer and citation tally

    A shallow embedding of the computed behaviour of
    [streamlit_app/streamlit_app.py]: the three inline copies of the trait
    completeness scorer ([render_document_selector], [page_extracted_traits],
    [page_analytics]), the trait display cards, and the citation source
    tally, together with the properties the specification states about them.

    Modelling conventions.
    - A Python [str] is a [string] of bytes; [upper] and [lower] act on the
      ASCII letters and leave every other byte alone, which is what Python
      does on ASCII text.
    - A cell of the trait row and a decoded JSON value are both a [pyval].
      [str()] of [None], booleans, integers and strings is computed; [str()]
      of floats, lists and dicts, and [json.loads] itself, are library code
      and are taken from a [PyRuntime].
    - A Python [float] is modelled by the exact rational it approximates
      (there is no NaN), so percentages are exact in [Q].
    - An exception is a value of [exn]; code that may raise returns a
      [result]. *)

From Stdlib Require Import QArith Lia.
From Stdlib Require Import Strings.String Strings.Ascii Numbers.DecimalString.
From stdpp Require Import gmap strings list fin_maps sorting.

Set Warnings "-register-all".
Local Open Scope string_scope.

(** ** Python string primitives *)

Module Str.

Definition dquote : ascii := "034"%char.
Definition squote : ascii := "039"%char.

(** [s.upper()] and [s.lower()], byte by byte. *)
Definition upper_char (c : ascii) : ascii :=
  let n := nat_of_ascii c in
  if (97 <=? n)%nat && (n <=? 122)%nat then ascii_of_nat (n - 32) else c.

Definition lower_char (c : ascii) : ascii :=
  let n := nat_of_ascii c in
  if (65 <=? n)%nat && (n <=? 90)%nat then ascii_of_nat (n + 32) else c.

Fixpoint map (f : ascii -> ascii) (s : string) : string :=
  match s with
  | EmptyString => EmptyString
  | String c s' => String (f c) (map f s')
  end.

Definition upper : string -> string := map upper_char.
Definition lower : string -> string := map lower_char.

(** [bool(s)]: a string is true when it is not empty. *)
Definition truthy (s : string) : bool :=
  match s with EmptyString => false | String _ _ => true end.

(** [needle in s]. *)
Fixpoint contains (needle s : string) : bool :=
  String.prefix needle s ||
  match s with
  | EmptyString => false
  | String _ s' => contains needle s'
  end.

(** [s.lstrip(c)], [s.rstrip(c)] and [s.strip(c)] for a one-character
    argument: every leading (trailing) occurrence of [c] goes. *)
Fixpoint lstrip (c : ascii) (s : string) : string :=
  match s with
  | EmptyString => EmptyString
  | String a s' => if Ascii.eqb a c then lstrip c s' else s
  end.

Fixpoint rstrip (c : ascii) (s : string) : string :=
  match s with
  | EmptyString => EmptyString
  | String a s' =>
      match rstrip c s' with
      | EmptyString => if Ascii.eqb a c then EmptyString else String a EmptyString
      | r => String a r
      end
  end.

Definition strip (c : ascii) (s : string) : string := rstrip c (lstrip c s).

(** [c * n]. *)
Fixpoint repeat (c : ascii) (n : nat) : string :=
  match n with
  | O => EmptyString
  | S n' => String c (repeat c n')
  end.

(** The text [s] between two double quotes, and between two single
    quotes. *)
Definition dquoted (s : string) : string :=
  String dquote (s ++ String dquote EmptyString).
Definition squoted (s : string) : string :=
  String squote (s ++ String squote EmptyString).

(** [s.replace(c, new)] for a one-character [c]: every occurrence of [c],
    left to right, becomes [new]. *)
Fixpoint replace_char (c : ascii) (new s : string) : string :=
  match s with
  | EmptyString => EmptyString
  | String a s' =>
      if Ascii.eqb a c then new ++ replace_char c new s'
      else String a (replace_char c new s')
  end.

(** [s[:n]]. Like [String.length] for [len(s)], it counts bytes, which are
    the characters of an ASCII text. *)
Fixpoint take (n : nat) (s : string) : string :=
  match n, s with
  | O, _ => EmptyString
  | S _, EmptyString => EmptyString
  | S n', String a s' => String a (take n' s')
  end.

(** [c.isspace()] on ASCII: tab, line feed, vertical tab, form feed,
    carriage return, the four separators 28 to 31, and the space. *)
Definition isspace (c : ascii) : bool :=
  let n := nat_of_ascii c in
  ((9 <=? n)%nat && (n <=? 13)%nat) || ((28 <=? n)%nat && (n <=? 32)%nat).

Definition cons_word (w : string) (ws : list string) : list string :=
  match w with EmptyString => ws | String _ _ => w :: ws end.

(** The word that starts [s], if [s] does not start with a space, and the
    words after it. *)
Fixpoint split_aux (s : string) : string * list string :=
  match s with
  | EmptyString => (EmptyString, [])
  | String c s' =>
      let '(w, ws) := split_aux s' in
      if isspace c then (EmptyString, cons_word w ws) else (String c w, ws)
  end.

(** [s.split()]: the maximal runs of characters that are not spaces. *)
Definition split (s : string) : list string :=
  let '(w, ws) := split_aux s in cons_word w ws.

(** [sep.join(parts)]. *)
Fixpoint join (sep : string) (parts : list string) : string :=
  match parts with
  | [] => EmptyString
  | [w] => w
  | w :: rest => w ++ sep ++ join sep rest
  end.

End Str.

(** ** Python values, exceptions and the runtime *)

Inductive pyval : Type :=
  | PyNone
  | PyBool (b : bool)
  | PyInt (z : Z)
  | PyFloat (q : Q)
  | PyStr (s : string)
  | PyList (l : list pyval)
  | PyDict (m : gmap string pyval).

Inductive exn : Type :=
  | KeyError (key : string)
  | TypeError
  | AttributeError
  | ValueError
  | ZeroDivisionError
  | JSONDecodeError.

Inductive result (A : Type) : Type :=
  | Ok (a : A)
  | Raise (e : exn).
Arguments Ok {A} a.
Arguments Raise {A} e.

#[global] Instance result_ret : MRet result := fun A a => Ok a.
#[global] Instance result_bind : MBind result := fun A B f m =>
  match m with
  | Ok a => f a
  | Raise e => Raise e
  end.

(** [try: body / except Exception: handler] and the bare [except:]; every
    exception of [exn] derives from [Exception], so both catch all of
    them. *)
Definition try_except {A : Type} (body : result A) (handler : exn -> result A)
  : result A :=
  match body with
  | Ok a => Ok a
  | Raise e => handler e
  end.

(** Library code the program calls: [repr] of the values whose text this
    development does not compute, and [json.loads] ([None] when it raises
    [JSONDecodeError]). *)
Class PyRuntime : Type := {
  py_repr : pyval -> string;
  json_loads : string -> option pyval
}.

(** [bool(v)]. *)
Definition py_truthy (v : pyval) : bool :=
  match v with
  | PyNone => false
  | PyBool b => b
  | PyInt z => negb (z =? 0)%Z
  | PyFloat q => negb (Qeq_bool q 0)
  | PyStr s => Str.truthy s
  | PyList l => match l with [] => false | _ :: _ => true end
  | PyDict m => negb (bool_decide (m = ∅))
  end.

(** [str(v)]. *)
Definition py_str `{PyRuntime} (v : pyval) : string :=
  match v with
  | PyNone => "None"
  | PyBool true => "True"
  | PyBool false => "False"
  | PyInt z => NilZero.string_of_int (Z.to_int z)
  | PyStr s => s
  | PyFloat _ | PyList _ | PyDict _ => py_repr v
  end.

(** [json.loads(v)]: [TypeError] unless [v] is a string. *)
Definition py_json_loads `{PyRuntime} (v : pyval) : result pyval :=
  match v with
  | PyStr s =>
      match json_loads s with
      | Some j => Ok j
      | None => Raise JSONDecodeError
      end
  | _ => Raise TypeError
  end.

(** [list(d.values())]: [AttributeError] unless [d] is a dict. *)
Definition py_values (d : pyval) : result (list pyval) :=
  match d with
  | PyDict m => Ok (map_to_list m).*2
  | _ => Raise AttributeError
  end.

(** [sum(1 for v in vs if p(v))]. *)
Definition sum_ones_if (p : pyval -> bool) (vs : list pyval) : nat :=
  foldl (fun acc v => if p v then acc + 1 else acc) 0 vs.

(** [a / b] on two counts. *)
Definition truediv (a b : nat) : result Q :=
  match b with
  | O => Raise ZeroDivisionError
  | S _ => Ok (inject_Z (Z.of_nat a) / inject_Z (Z.of_nat b))%Q
  end.

(** ** The trait row *)

(** One row of the trait table, as the pandas Series [traits_row]. *)
Abbreviation row := (gmap string pyval).

(** [traits_row.get(field)]: [None] for a missing key. *)
Definition row_get (r : row) (field : string) : pyval :=
  default PyNone (r !! field).

(** [traits_row[field]]: [KeyError] for a missing key. *)
Definition row_index (r : row) (field : string) : result pyval :=
  match r !! field with
  | Some v => Ok v
  | None => Raise (KeyError field)
  end.

(** The literal [trait_field_names], written out identically in the three
    functions that score a row. *)
Definition trait_field_names : list string :=
  [ "TRAIT"; "GERMPLASM_NAME"; "GENOME_VERSION"; "CHROMOSOME"; "PHYSICAL_POSITION";
    "GENE"; "SNP_NAME"; "VARIANT_ID"; "VARIANT_TYPE"; "EFFECT_SIZE";
    "GWAS_MODEL"; "EVIDENCE_TYPE"; "ALLELE"; "ANNOTATION"; "CANDIDATE_REGION" ].

(** The two [strip] calls applied to [s = str(value)]: every leading and
    trailing double quote goes first, then every leading and trailing single
    quote. *)
Definition strip_quotes (s : string) : string :=
  Str.strip Str.squote (Str.strip Str.dquote s).

(** The counting loop shared by the three copies:
    [n = 0; for field in fields: value = traits_row.get(field); if
    counts(value): n += 1]. *)
Definition count_fields (counts : pyval -> bool) (fields : list string) (r : row)
  : nat :=
  foldl (fun n field => if counts (row_get r field) then n + 1 else n) 0 fields.

(** ** Lists, frames and ordered dicts *)

(** [df.iloc[0]] on the rows of a frame, and [l[0]] on a list: [None] stands
    for the [IndexError] of an empty one. *)
Definition iloc0 {A : Type} (rows : list A) : option A := head rows.

(** [l.index(x)]: the first position of [x], [ValueError] when there is
    none. *)
Fixpoint list_index (x : string) (l : list string) : result nat :=
  match l with
  | [] => Raise ValueError
  | y :: l' => if String.eqb y x then Ok 0 else n ← list_index x l'; mret (S n)
  end.

(** A dict with string keys, in insertion order. [d[k] = v] keeps the place
    of a key that is already there. *)
Fixpoint od_set {V : Type} (k : string) (v : V) (d : list (string * V))
  : list (string * V) :=
  match d with
  | [] => [(k, v)]
  | (k', v') :: d' =>
      if String.eqb k' k then (k', v) :: d' else (k', v') :: od_set k v d'
  end.

(** [d[k]]: [KeyError] for a missing key. *)
Fixpoint od_get {V : Type} (d : list (string * V)) (k : string) : result V :=
  match d with
  | [] => Raise (KeyError k)
  | (k', v') :: d' => if String.eqb k' k then Ok v' else od_get d' k
  end.

(** [series.unique()]: the values in order of first appearance. *)
Fixpoint unique (l : list Z) : list Z :=
  match l with
  | [] => []
  | x :: l' => x :: filter (fun y => y <> x) (unique l')
  end.

(** [sorted(l)] on integers. *)
Definition py_sorted (l : list Z) : list Z := merge_sort Z.le l.

(** ** [render_document_selector]: the sidebar quick stats *)

Module render_document_selector.
Section with_runtime.
Context `{PyRuntime}.

(** The body of the loop: does [value] add one to [actual_found]? *)
Definition counts (value : pyval) : bool :=
  if py_truthy value then
    let value_str := strip_quotes (py_str value) in
    Str.truthy value_str
    && negb (Str.contains "NOT_FOUND" (Str.upper value_str))
  else false.

Definition actual_found (fields : list string) (r : row) : nat :=
  count_fields counts fields r.

Definition total_traits (fields : list string) : nat := length fields.

(** [(actual_found / total_traits) * 100], unguarded. *)
Definition actual_accuracy (fields : list string) (r : row) : result Q :=
  q ← truediv (actual_found fields r) (total_traits fields);
  mret (q * 100)%Q.

(** The metrics "Traits Extracted" (found, total) and "Accuracy". *)
Definition score (fields : list string) (r : row) : result (nat * nat * Q) :=
  acc ← actual_accuracy fields r;
  mret (actual_found fields r, total_traits fields, acc).

Definition quick_stats (r : row) : result (nat * nat * Q) :=
  score trait_field_names r.

(** One row of [load_documents()]. *)
Record document : Type := {
  DOCUMENT_ID : string;
  PDF_FILENAME : string;
  PAGE_COUNT : Z;
  FILE_URL : string
}.

(** The option label of a document: its file name and the first eight
    characters of its id. *)
Definition doc_label (d : document) : string :=
  PDF_FILENAME d ++ " (" ++ Str.take 8 (DOCUMENT_ID d) ++ "...)".

(** The dict comprehension [doc_options]: label to document id, over the
    rows in order. *)
Definition doc_options (documents : list document) : list (string * string) :=
  foldl (fun d row => od_set (doc_label row) (DOCUMENT_ID row) d) [] documents.

(** The session's [selected_doc_id] after the initialisation: the id of the
    first document when the session has none. [None] is the [IndexError] of
    an empty frame, which the guard before it excludes. *)
Definition initial_selection (session : option string) (documents : list document)
  : option string :=
  match session with
  | Some id => Some id
  | None => DOCUMENT_ID <$> iloc0 documents
  end.

Definition current_doc_labels (documents : list document) (selected : string)
  : list string :=
  (filter (fun item => item.2 = selected) (doc_options documents)).*1.

(** [current_index]: the place of the first current label among the
    options, 0 when no label maps to the selected id. *)
Definition current_index (documents : list document) (selected : string)
  : result nat :=
  match current_doc_labels documents selected with
  | label :: _ => list_index label (doc_options documents).*1
  | [] => Ok 0
  end.

(** [doc_options[selected_doc_label]], the new [selected_doc_id]. *)
Definition select (documents : list document) (selected_doc_label : string)
  : result string :=
  od_get (doc_options documents) selected_doc_label.

(** [documents[documents['DOCUMENT_ID'] == selected].iloc[0]]. *)
Definition doc_info (documents : list document) (selected : string)
  : option document :=
  iloc0 (filter (fun row => DOCUMENT_ID row = selected) documents).

End with_runtime.
End render_document_selector.

(** ** [page_extracted_traits]: stats header, citations and trait cards *)

Module page_extracted_traits.
Section with_runtime.
Context `{PyRuntime}.

(** [is_valid], with the guard [if value:] around it. *)
Definition is_valid (value : pyval) : bool :=
  if py_truthy value then
    let value_str := strip_quotes (py_str value) in
    Str.truthy value_str
    && negb (Str.contains "NOT_FOUND" (Str.upper value_str))
    && negb (Str.contains "NOT FOUND" (Str.upper value_str))
  else false.

Definition actual_found (fields : list string) (r : row) : nat :=
  count_fields is_valid fields r.

Definition total_traits (fields : list string) : nat := length fields.

(** [(actual_found / total_traits) * 100 if total_traits > 0 else 0]. *)
Definition actual_accuracy (fields : list string) (r : row) : result Q :=
  if (0 <? total_traits fields)%nat then
    q ← truediv (actual_found fields r) (total_traits fields);
    mret (q * 100)%Q
  else mret 0%Q.

(** What the stats header shows: found, total, accuracy, not reported. *)
Definition score (fields : list string) (r : row)
  : result (nat * nat * Q * nat) :=
  acc ← actual_accuracy fields r;
  mret (actual_found fields r, total_traits fields, acc,
        total_traits fields - actual_found fields r).

Definition stats (r : row) : result (nat * nat * Q * nat) :=
  score trait_field_names r.

(** [trait_fields]: card label and lower-case column name, in display
    order (the icons are left out). *)
Definition trait_fields : list (string * string) :=
  [ ("Trait", "trait"); ("Germplasm Name", "germplasm_name");
    ("Genome Version", "genome_version"); ("Chromosome", "chromosome");
    ("Physical Position", "physical_position"); ("Gene", "gene");
    ("SNP Name", "snp_name"); ("Variant ID", "variant_id");
    ("Variant Type", "variant_type"); ("Effect Size", "effect_size");
    ("GWAS Model", "gwas_model"); ("Allele", "allele");
    ("Annotation", "annotation"); ("Candidate Region", "candidate_region") ].

(** [try: citations = json.loads(c) if c else {} / except: citations = {}]
    with [c = traits_row['FIELD_CITATIONS']]. *)
Definition citations (r : row) : result pyval :=
  try_except
    (cell ← row_index r "FIELD_CITATIONS";
     if py_truthy cell then py_json_loads cell else mret (PyDict ∅))
    (fun _ => mret (PyDict ∅)).

(** [if value: value = str(value)] with its quotes stripped. *)
Definition clean (value : pyval) : pyval :=
  if py_truthy value then PyStr (strip_quotes (py_str value)) else value.

(** [value.upper()]: only a string has the method. *)
Definition py_upper (value : pyval) : result string :=
  match value with
  | PyStr s => Ok (Str.upper s)
  | _ => Raise AttributeError
  end.

(** [value == literal] for a string literal. *)
Definition py_eq_str (value : pyval) (literal : string) : bool :=
  match value with
  | PyStr s => String.eqb s literal
  | _ => false
  end.

(** [is_missing], an [or] chain evaluated left to right, stopping at the
    first true operand. *)
Definition is_missing (value : pyval) : result bool :=
  if negb (py_truthy value) then mret true
  else if py_eq_str value "Not in paper" then mret true
  else
    u1 ← py_upper value;
    if Str.contains "NOT_FOUND" u1 then mret true
    else
      u2 ← py_upper value;
      if Str.contains "NOT FOUND" u2 then mret true
      else if py_eq_str value "None" then mret true
      else mret (py_eq_str value "NULL").

(** One card: its label and whether it is drawn as "Not Found". The
    column is read with [traits_row[field.upper()]]. *)
Definition card (r : row) (entry : string * string) : result (string * bool) :=
  value ← row_index r (Str.upper entry.2);
  missing ← is_missing (clean value);
  mret (entry.1, missing).

Definition cards_of (entries : list (string * string)) (r : row)
  : result (list (string * bool)) :=
  mapM (card r) entries.

Definition cards (r : row) : result (list (string * bool)) :=
  cards_of trait_fields r.

(** The "Evidence Type" item of the stats header:
    [traits_row['EVIDENCE_TYPE'] or "GWAS"]. *)
Definition evidence_type_stat (r : row) : result pyval :=
  v ← row_index r "EVIDENCE_TYPE";
  mret (if py_truthy v then v else PyStr "GWAS").

(** The whole stats header: the score, then the evidence type. *)
Definition stats_header (r : row) : result (nat * nat * Q * nat * pyval) :=
  s ← stats r;
  e ← evidence_type_stat r;
  mret (s, e).

(** The "Confidence Summary" card for a citations cell that is the string
    [confidence_text]. *)
Definition conf_summary_text (confidence_text : string) : string :=
  if Str.truthy confidence_text && negb (String.eqb confidence_text "N/A") then
    if Str.contains "HIGH" confidence_text then
      let conf_parts := Str.split confidence_text in
      if (3 <? length conf_parts)%nat then Str.join " " (take 3 conf_parts)
      else Str.take 20 confidence_text
    else Str.take 30 confidence_text
  else "Not available".

(** The card on a row, with [confidence_text = traits_row.get(
    'FIELD_CITATIONS', 'N/A')]: the default for a missing key, a string
    cell as above, any cell that is false in Python as "Not available".
    A true cell that is not a string, which the text column does not hold,
    is outside the model ([None]). *)
Definition conf_summary (r : row) : option string :=
  match r !! "FIELD_CITATIONS" with
  | None => Some (conf_summary_text "N/A")
  | Some (PyStr s) => Some (conf_summary_text s)
  | Some v => if py_truthy v then None else Some "Not available"
  end.

End with_runtime.
End page_extracted_traits.

(** ** [page_browser]: one page of the document *)

Module page_browser.

(** One row of [load_document_pages()]: the page number, the nullable text
    and image path, the nullable flags. *)
Record page_row : Type := {
  PAGE_NUMBER : Z;
  PAGE_TEXT : option string;
  IMAGE_PATH : option string;
  HAS_TEXT : option bool;
  HAS_IMAGE : option bool
}.

(** [bool(v)] of a nullable text and of a nullable flag. *)
Definition text_truthy (t : option string) : bool :=
  match t with Some s => Str.truthy s | None => false end.

Definition flag_truthy (b : option bool) : bool := default false b.

(** [sorted(pages_df['PAGE_NUMBER'].unique())]. *)
Definition page_numbers (pages_df : list page_row) : list Z :=
  py_sorted (unique (PAGE_NUMBER <$> pages_df)).

(** [pages_df[pages_df['PAGE_NUMBER'] == selected_page].iloc[0]]. *)
Definition page_data (pages_df : list page_row) (selected_page : Z)
  : option page_row :=
  iloc0 (filter (fun row => PAGE_NUMBER row = selected_page) pages_df).

(** The value of the text area:
    [text[:2000] + "..." if len(text) > 2000 else text]. *)
Definition text_value (text : string) : string :=
  if (2000 <? String.length text)%nat then Str.take 2000 text ++ "..." else text.

(** The text column: the text area when [HAS_TEXT and PAGE_TEXT], the
    notice "No text content for this page" ([None]) otherwise. *)
Definition text_panel (page : page_row) : option string :=
  match PAGE_TEXT page with
  | Some text =>
      if flag_truthy (HAS_TEXT page) && Str.truthy text
      then Some (text_value text) else None
  | None => None
  end.

(** The image column asks for an image when [HAS_IMAGE and IMAGE_PATH];
    the path it asks for is [IMAGE_PATH.lstrip('@')]. *)
Definition image_path (page : page_row) : option string :=
  match IMAGE_PATH page with
  | Some path =>
      if flag_truthy (HAS_IMAGE page) && Str.truthy path
      then Some (Str.lstrip "@" path) else None
  | None => None
  end.

(** [len(PAGE_TEXT) if PAGE_TEXT else 0]. *)
Definition text_len (page : page_row) : nat :=
  match PAGE_TEXT page with
  | Some text => if Str.truthy text then String.length text else 0
  | None => 0
  end.

(** The "Status" metric: complete when [HAS_TEXT and HAS_IMAGE]. *)
Definition complete (page : page_row) : bool :=
  flag_truthy (HAS_TEXT page) && flag_truthy (HAS_IMAGE page).

End page_browser.

(** ** [page_analytics]: extraction summary and extraction sources *)

Inductive sources_view : Type :=
  | SourcesChart (phase1_count phase2_count llm_count : nat)
  | SourcesWarning.

Module page_analytics.
Section with_runtime.
Context `{PyRuntime}.

Definition counts (value : pyval) : bool :=
  if py_truthy value then
    let value_str := strip_quotes (py_str value) in
    Str.truthy value_str
    && negb (Str.contains "NOT_FOUND" (Str.upper value_str))
  else false.

Definition extracted (fields : list string) (r : row) : nat :=
  count_fields counts fields r.

Definition not_reported (fields : list string) (r : row) : nat :=
  length fields - extracted fields r.

(** The number that [f"{v:.1f}"] prints: a float, an int or a bool is
    formatted, a string has no format code [f], anything else has no
    format specification at all. *)
Definition format_f (v : pyval) : result Q :=
  match v with
  | PyFloat q => Ok q
  | PyInt z => Ok (inject_Z z)
  | PyBool b => Ok (if b then 1 else 0)%Q
  | PyStr _ => Raise ValueError
  | _ => Raise TypeError
  end.

(** The metric "Extraction Accuracy". *)
Definition accuracy_metric (r : row) : result Q :=
  v ← row_index r "EXTRACTION_ACCURACY_PCT";
  format_f v.

(** The bar chart counts and the metric of the summary column. *)
Definition summary (r : row) : result (nat * nat * Q) :=
  acc ← accuracy_metric r;
  mret (extracted trait_field_names r, not_reported trait_field_names r, acc).

(** [sum(1 for v in citations.values() if label in str(v))]. *)
Definition label_count (label : string) (vs : list pyval) : nat :=
  sum_ones_if (fun v => Str.contains label (py_str v)) vs.

(** The body of the [try] block of the sources column. *)
Definition sources_body (r : row) : result sources_view :=
  cell ← row_index r "FIELD_CITATIONS";
  citations ← (if py_truthy cell then py_json_loads cell else mret (PyDict ∅));
  vs1 ← py_values citations;
  let phase1_count := label_count "Phase1" vs1 in
  vs2 ← py_values citations;
  let phase2_count := label_count "Phase2" vs2 in
  vs3 ← py_values citations;
  let llm_count := label_count "LLM" vs3 in
  mret (SourcesChart phase1_count phase2_count llm_count).

(** [try: ... except Exception as e: st.warning(...)]. *)
Definition sources (r : row) : result sources_view :=
  try_except (sources_body r) (fun _ => mret SourcesWarning).

End with_runtime.
End page_analytics.

(** ** [page_chatbot]: questions about the document *)

Module page_chatbot.

Definition newline : ascii := "010"%char.

(** [question.replace("'", "''")], the escape for a SQL string literal;
    the prompt is escaped the same way. *)
Definition sql_escape (text : string) : string :=
  Str.replace_char Str.squote "''" text.


(** One row of the search: the page number cast to an integer and the page
    text, both nullable. *)
Record search_row : Type := {
  PAGE_NUMBER : option Z;
  PAGE_TEXT : option string
}.

(** The values [page_num] takes: an integer or the string 'Unknown'. *)
Inductive page_num_value : Type :=
  | PageNo (n : Z)
  | Unknown.

#[global] Instance page_num_value_eq_dec : EqDecision page_num_value.
Proof. solve_decision. Defined.

(** [result['PAGE_NUMBER'] if result['PAGE_NUMBER'] else 'Unknown']: a
    null and a zero page number are both false. *)
Definition page_num_of (r : search_row) : page_num_value :=
  match PAGE_NUMBER r with
  | Some n => if (n =? 0)%Z then Unknown else PageNo n
  | None => Unknown
  end.

(** [result['PAGE_TEXT'] if result['PAGE_TEXT'] else '']. *)
Definition page_text_of (r : search_row) : string :=
  default "" (PAGE_TEXT r).

(** [str(page_num)]. *)
Definition page_num_str (p : page_num_value) : string :=
  match p with
  | PageNo n => NilZero.string_of_int (Z.to_int n)
  | Unknown => "Unknown"
  end.

(** One turn of the loop over the search results, on
    [(context_str, page_refs)]. *)
Definition context_step (acc : string * list page_num_value) (r : search_row)
  : string * list page_num_value :=
  let '(context_str, page_refs) := acc in
  let page_num := page_num_of r in
  let page_text := page_text_of r in
  (context_str ++ "[Page " ++ page_num_str page_num ++ "]: " ++ page_text
     ++ String newline (String newline ""),
   if negb (bool_decide (page_num ∈ page_refs))
      && negb (bool_decide (page_num = Unknown))
   then (page_refs ++ [page_num])%list else page_refs).

Definition build_context (search_results : list search_row)
  : string * list page_num_value :=
  foldl context_step ("", []) search_results.

Definition is_page_no (p : page_num_value) : bool :=
  match p with PageNo _ => true | Unknown => false end.

Definition page_no (p : page_num_value) : Z :=
  match p with PageNo n => n | Unknown => 0 end.

(** [sorted(page_refs)]: integers are sorted; a list of fewer than two
    items, or of 'Unknown' only, compares nothing across types and is
    returned in order; an integer beside 'Unknown' cannot be compared. *)
Definition sorted_refs (page_refs : list page_num_value) : result (list page_num_value) :=
  if forallb is_page_no page_refs
  then Ok (PageNo <$> py_sorted (page_no <$> page_refs))
  else if forallb (fun p => negb (is_page_no p)) page_refs then Ok page_refs
  else Raise TypeError.

(** [llm_result[0]['RESPONSE'] if llm_result else "Sorry, ..."], on the
    responses of the rows. *)
Definition response_of (llm_result : list string) : string :=
  match llm_result with
  | response :: _ => response
  | [] => "Sorry, I couldn't generate a response."
  end.

(** [response_with_refs]. *)
Definition response_with_refs (response : string) (page_refs : list page_num_value)
  : result string :=
  match page_refs with
  | [] => Ok response
  | _ :: _ =>
      refs ← sorted_refs page_refs;
      let page_refs_str :=
        Str.join ", " ((fun p => "Page " ++ page_num_str p) <$> refs) in
      mret (response ++ String newline (String newline "")
            ++ "**📄 Sources:** " ++ page_refs_str)
  end.

(** The [try] block, given what the two services answered: the rows of the
    search (or the exception of the embedding or the search) and, for the
    completion, its rows (or its exception). *)
Definition answer (search : result (list search_row))
    (complete : result (list string)) : result string :=
  search_results ← search;
  let '(context_str, page_refs) := build_context search_results in
  llm_result ← complete;
  response_with_refs (response_of llm_result) page_refs.

(** One entry of [st.session_state.chat_messages]. *)
Record message : Type := { role : string; content : string }.

Section with_exception_text.
(** [str(e)] of an exception. *)
Variable exn_str : exn -> string.

(** What a question adds to the history: the user message, then the
    assistant message, the answer or the error text. *)
Definition ask (chat_messages : list message) (question : string)
    (search : result (list search_row)) (complete : result (list string))
  : list message :=
  let chat_messages :=
    (chat_messages ++ [{| role := "user"; content := question |}])%list in
  match answer search complete with
  | Ok text =>
      (chat_messages ++ [{| role := "assistant"; content := text |}])%list
  | Raise e =>
      (chat_messages
       ++ [{| role := "assistant"; content := "❌ Error: " ++ exn_str e |}])%list
  end.

(** One run of the page on the session's history ([None] before the first
    run): the clear button empties it and restarts the run; otherwise a
    question, when the input holds one, is asked. *)
Definition run (session : option (list message)) (clear : bool)
    (question : option string)
    (search : result (list search_row)) (complete : result (list string))
  : list message :=
  let chat_messages := default [] session in
  if clear then []
  else
    match question with
    | Some q => if Str.truthy q then ask chat_messages q search complete
                else chat_messages
    | None => chat_messages
    end.

End with_exception_text.


End page_chatbot.

(** ** [main]: navigation *)

Module main.

Inductive page : Type :=
  | page_extracted_traits
  | page_browser
  | page_analytics
  | page_raw_data
  | page_chatbot.

(** The dict [pages]. *)
Definition pages : list (string * page) :=
  [ ("📋 Extracted Traits", page_extracted_traits);
    ("📄 Page Browser", page_browser);
    ("📊 Analytics Dashboard", page_analytics);
    ("🔍 Raw Data", page_raw_data);
    ("🤖 Ask Questions", page_chatbot) ].

(** The session's [current_page] after the initialisation. *)
Definition initial_page (session : option string) : string :=
  default "📋 Extracted Traits" session.

(** The [index] given to the radio:
    [list(pages.keys()).index(st.session_state.current_page)]. *)
Definition radio_index (session : option string) : result nat :=
  list_index (initial_page session) pages.*1.

(** How a call, and a run of [main], can end. [main] itself raises only
    from its two lookups, [list.index] and [pages[...]]; the functions it
    calls query the warehouse and draw the page, and an exception of theirs
    can be of any kind (a [KeyError] of a page, an error of the warehouse,
    the exception by which [st.stop()] ends the run), so its type [E] is left
    open. Such an exception is not caught in [main] and leaves it as it
    is. *)
Inductive ending (E : Type) : Type :=
  | Returns
  | Raises (e : exn)
  | Passes (e : E).
Arguments Returns {E}.
Arguments Raises {E} e.
Arguments Passes {E} e.

(** One run of [main] on a session whose [current_page] is [session]
    ([None] when the session has none yet), with [selected_page] the answer
    of the radio. What the two calls do is given: [selector] is the
    exception that leaves [render_document_selector()], [call p] the one
    that leaves the page function [p], [None] when the call returns. The
    index for the radio is computed first; then [current_page] is set to the
    answer, the selector is drawn, the page function is looked up in
    [pages] and called. The result is the [current_page] the session is left
    with, which it keeps when the run raises, and how the run ends. *)
Definition run {E : Type} (selector : option E) (call : page -> option E)
    (session : option string) (selected_page : string) : string * ending E :=
  match radio_index session with
  | Raise e => (initial_page session, Raises e)
  | Ok _ =>
      (selected_page,
       match selector with
       | Some e => Passes e
       | None =>
           match od_get pages selected_page with
           | Raise e => Raises e
           | Ok page_function =>
               match call page_function with
               | Some e => Passes e
               | None => Returns
               end
           end
       end)
  end.

End main.

(** ** A runtime to run the model on concrete rows *)

(** A reader for the JSON texts the citations column holds in practice: one
    object whose keys and values are string literals without escapes, or
    one of the literals [null], [true] and [false]. On such a text it
    returns what [json.loads] returns; it refuses every other text. *)
Module FlatJson.

Definition is_ws (c : ascii) : bool :=
  Ascii.eqb c " " || Ascii.eqb c "009" || Ascii.eqb c "010" || Ascii.eqb c "013".

Fixpoint skip_ws (s : string) : string :=
  match s with
  | EmptyString => EmptyString
  | String c s' => if is_ws c then skip_ws s' else s
  end.

(** The text of a string literal whose opening quote was read, and what
    follows its closing quote. *)
Fixpoint read_string_body (s : string) : option (string * string) :=
  match s with
  | EmptyString => None
  | String c s' =>
      if Ascii.eqb c Str.dquote then Some (EmptyString, s')
      else if Ascii.eqb c "092" || (nat_of_ascii c <? 32)%nat then None
      else '(text, rest) ← read_string_body s'; Some (String c text, rest)
  end.

Definition expect (c : ascii) (s : string) : option string :=
  match skip_ws s with
  | String a s' => if Ascii.eqb a c then Some s' else None
  | EmptyString => None
  end.

Definition read_string (s : string) : option (string * string) :=
  s' ← expect Str.dquote s; read_string_body s'.

(** The members of an object after its opening brace; a repeated key keeps
    its last value. *)
Fixpoint read_members (fuel : nat) (s : string) (m : gmap string pyval)
  : option (gmap string pyval * string) :=
  match fuel with
  | O => None
  | S fuel' =>
      '(k, s1) ← read_string s;
      s2 ← expect ":" s1;
      '(v, s3) ← read_string s2;
      let m' := <[k := PyStr v]> m in
      match skip_ws s3 with
      | String c s4 =>
          if Ascii.eqb c "," then read_members fuel' s4 m'
          else if Ascii.eqb c "}" then Some (m', s4)
          else None
      | EmptyString => None
      end
  end.

Definition at_end (s : string) : bool :=
  match skip_ws s with EmptyString => true | String _ _ => false end.

Fixpoint drop_prefix (p s : string) : option string :=
  match p, s with
  | EmptyString, _ => Some s
  | String a p', String b s' => if Ascii.eqb a b then drop_prefix p' s' else None
  | String _ _, EmptyString => None
  end.

(** The literal [word], alone in the text, read as [v]. *)
Definition read_word (word : string) (v : pyval) (s : string) : option pyval :=
  rest ← drop_prefix word (skip_ws s);
  if at_end rest then Some v else None.

Definition read_object (s : string) : option pyval :=
  s1 ← expect "{" s;
  match expect "}" s1 with
  | Some s2 => if at_end s2 then Some (PyDict ∅) else None
  | None =>
      '(m, s2) ← read_members (String.length s) s1 ∅;
      if at_end s2 then Some (PyDict m) else None
  end.

Definition loads (s : string) : option pyval :=
  match read_object s with
  | Some v => Some v
  | None =>
      match read_word "null" PyNone s with
      | Some v => Some v
      | None =>
          match read_word "true" (PyBool true) s with
          | Some v => Some v
          | None => read_word "false" (PyBool false) s
          end
      end
  end.

End FlatJson.

(** The runtime used on concrete inputs: [FlatJson.loads] for [json.loads].
    On the rows and citation objects it is used on, [str()] is only taken
    of [None], booleans, integers and strings, so [py_repr] is never
    consulted. *)
Definition flat_runtime : PyRuntime :=
  {| py_repr := fun _ => "<object>"; json_loads := FlatJson.loads |}.

(** ** The specification's words, and views of the code used to state the
    claims *)

Module Spec.
Section with_runtime.
Context `{PyRuntime}.

(** "not found" as the specification words it: case-insensitively empty,
    equal to none, null or not in paper, or containing not_found or
    not found. *)
Definition not_found (t : string) : bool :=
  let l := Str.lower t in
  String.eqb l ""
  || String.eqb l "none" || String.eqb l "null" || String.eqb l "not in paper"
  || Str.contains "not_found" l || Str.contains "not found" l.

(** The part of it that is about the sentinel text: case-insensitively
    empty, or containing not_found or not found. *)
Definition sentinel (t : string) : bool :=
  let l := Str.lower t in
  String.eqb l "" || Str.contains "not_found" l || Str.contains "not found" l.

(** The three literals the trait card compares with. *)
Definition card_literal (t : string) : bool :=
  String.eqb t "Not in paper" || String.eqb t "None" || String.eqb t "NULL".

(** A cell that holds one of the three literals. Only a cell that is true
    in Python is turned into a text and trimmed, so a null cell or an empty
    one holds none of them. *)
Definition literal_cell (v : pyval) : bool :=
  py_truthy v && card_literal (strip_quotes (py_str v)).

Definition is_quote (c : ascii) : bool :=
  Ascii.eqb c Str.dquote || Ascii.eqb c Str.squote.

(** "One layer" of quotes: at most one leading and at most one trailing
    character for which [p] holds. *)
Definition lstrip1 (p : ascii -> bool) (s : string) : string :=
  match s with
  | EmptyString => EmptyString
  | String a s' => if p a then s' else s
  end.

Fixpoint rstrip1 (p : ascii -> bool) (s : string) : string :=
  match s with
  | EmptyString => EmptyString
  | String a EmptyString => if p a then EmptyString else s
  | String a s' => String a (rstrip1 p s')
  end.

Definition strip1 (p : ascii -> bool) (s : string) : string :=
  rstrip1 p (lstrip1 p s).

(** One layer of either quote character. *)
Definition trim_one_layer (s : string) : string := strip1 is_quote s.

(** One layer of double quotes, then one layer of single quotes. *)
Definition trim_one_layer_each (s : string) : string :=
  strip1 (fun c => Ascii.eqb c Str.squote)
    (strip1 (fun c => Ascii.eqb c Str.dquote) s).

(** The columns that have a trait card, in display order. *)
Definition card_columns : list string :=
  (fun entry => Str.upper entry.2) <$> page_extracted_traits.trait_fields.

(** The number of cards drawn as "Found". *)
Definition found_cards (cs : list (string * bool)) : nat :=
  length (filter (fun c => c.2 = false) cs).

(** Whether the card of a cell is drawn as "Not Found": the value of
    [is_missing] on the cleaned cell, as one boolean. *)
Definition card_missing (v : pyval) : bool :=
  if py_truthy v then
    let t := strip_quotes (py_str v) in
    negb (Str.truthy t)
    || String.eqb t "Not in paper"
    || Str.contains "NOT_FOUND" (Str.upper t)
    || Str.contains "NOT FOUND" (Str.upper t)
    || String.eqb t "None"
    || String.eqb t "NULL"
  else true.

(** The test the scorer applies to the text it has trimmed. *)
Definition valid_text (t : string) : bool :=
  Str.truthy t
  && negb (Str.contains "NOT_FOUND" (Str.upper t))
  && negb (Str.contains "NOT FOUND" (Str.upper t)).

(** The tally as the specification words it: the number of entries of the
    citation mapping whose value, as a string, contains the label. *)
Definition tally (label : string) (m : gmap string pyval) : nat :=
  size (filter (fun kv => Str.contains label (py_str kv.2) = true) m).

End with_runtime.
End Spec.

(** ** Readers and observations used to state the further properties *)

Module Obs.

(** How a SQL string literal is read: inside the quotes, two single quotes
    stand for one. *)
Fixpoint sql_unescape (s : string) : string :=
  match s with
  | EmptyString => EmptyString
  | String a s' =>
      if Ascii.eqb a Str.squote then
        match s' with
        | String b s'' =>
            if Ascii.eqb b Str.squote then String Str.squote (sql_unescape s'')
            else String a (sql_unescape s')
        | EmptyString => String a EmptyString
        end
      else String a (sql_unescape s')
  end.

(** Whether the text, read as the inside of a SQL string literal, holds a
    single quote that is not one of a pair, which would end the literal. *)
Fixpoint sql_closes (s : string) : bool :=
  match s with
  | EmptyString => false
  | String a s' =>
      if Ascii.eqb a Str.squote then
        match s' with
        | String b s'' => if Ascii.eqb b Str.squote then sql_closes s'' else true
        | EmptyString => true
        end
      else sql_closes s'
  end.





(** A word: a non-empty text without a space character. *)
Fixpoint no_space (s : string) : bool :=
  match s with
  | EmptyString => true
  | String c s' => negb (Str.isspace c) && no_space s'
  end.

Definition is_word (w : string) : bool := Str.truthy w && no_space w.

(** The first card entry whose column the row does not have. *)
Fixpoint first_missing (r : row) (entries : list (string * string))
  : option (string * string) :=
  match entries with
  | [] => None
  | entry :: rest =>
      match r !! Str.upper entry.2 with
      | None => Some entry
      | Some _ => first_missing r rest
      end
  end.

(** How a run ends when its two lookups succeed and [page_function] is the
    function called: with the exception of the selector, else with that of
    the page function, else by returning. *)
Definition calls_ending {E : Type} (selector : option E) (call : main.page -> option E)
    (page_function : main.page) : main.ending E :=
  match selector with
  | Some e => main.Passes e
  | None =>
      match call page_function with
      | Some e => main.Passes e
      | None => main.Returns
      end
  end.

(** Whether in a series of runs of [main] on one session, each given by the
    answer of the radio and by what the two calls do, no run ends with an
    exception of the lookups of [main]. *)
Fixpoint navigation_ok {E : Type} (session : option string)
    (runs : list (string * option E * (main.page -> option E))) : bool :=
  match runs with
  | [] => true
  | (selected_page, selector, call) :: rest =>
      match main.run selector call session selected_page with
      | (_, main.Raises _) => false
      | (current_page, _) => navigation_ok (Some current_page) rest
      end
  end.

(** The page numbers of the search rows that are neither null nor zero. *)
Definition cited (n : Z) (search_results : list page_chatbot.search_row) : Prop :=
  n <> 0%Z /\ exists r, r ∈ search_results /\ page_chatbot.PAGE_NUMBER r = Some n.

End Obs.

(** ** Concrete rows *)

(** The row of the specification's scoring example and its field list. *)
Definition example_fields : list string := ["trait"; "gene"; "chromosome"].

Definition example_record : row :=
  {[ "trait" := PyStr "Plant height";
     "gene" := PyStr "NOT_FOUND";
     "chromosome" := PyStr "" ]}.

(** A row that holds [v] in each of the fifteen trait columns. *)
Definition uniform_row (v : pyval) : row :=
  list_to_map ((fun field => (field, v)) <$> trait_field_names).

(** A row with no [GENE] column. *)
Definition row_without_gene : row := delete "GENE" (uniform_row (PyStr "GWAS")).

(** Every trait column holds the sentinel, one holds lower-case [none]. *)
Definition lowercase_none_row : row :=
  <["TRAIT" := PyStr "none"]> (uniform_row (PyStr "NOT_FOUND")).

(** Every trait column holds the sentinel, one spells it with a space. *)
Definition spaced_sentinel_row : row :=
  <["TRAIT" := PyStr "NOT FOUND"]> (uniform_row (PyStr "NOT_FOUND")).

(** Nothing was extracted, yet the stored accuracy says 100. *)
Definition stale_accuracy_row : row :=
  <["EXTRACTION_ACCURACY_PCT" := PyFloat 100]> (uniform_row (PyStr "NOT_FOUND")).

(** A cell that is three double quotes and nothing else. *)
Definition triple_quote : pyval := PyStr (Str.repeat Str.dquote 3).

(** The citations text of the specification's tally example, and the dict
    [json.loads] makes of it. *)
Definition example_citations : string :=
  "{" ++ Str.dquoted "gene" ++ ":" ++ Str.dquoted "Phase1 extraction" ++ ","
  ++ Str.dquoted "trait" ++ ":" ++ Str.dquoted "Phase1/Phase2 consensus" ++ "}".

Definition example_citations_dict : gmap string pyval :=
  {[ "gene" := PyStr "Phase1 extraction";
     "trait" := PyStr "Phase1/Phase2 consensus" ]}.

Definition example_citations_row : row :=
  <["FIELD_CITATIONS" := PyStr example_citations]> (uniform_row (PyStr "GWAS")).

(** A row whose citations text is not JSON. *)
Definition malformed_citations_row : row :=
  <["FIELD_CITATIONS" := PyStr "{not valid"]> (uniform_row (PyStr "GWAS")).

(** A row whose citations text is the JSON literal [null], and one whose
    citations cell is [None]. *)
Definition null_citations_row : row :=
  <["FIELD_CITATIONS" := PyStr "null"]> (uniform_row (PyStr "GWAS")).

Definition no_citations_row : row :=
  <["FIELD_CITATIONS" := PyNone]> (uniform_row (PyStr "GWAS")).

(** Fourteen cards, all drawn as "Found". *)
Definition all_found_cards : list (string * bool) :=
  (fun entry => (entry.1, false)) <$> page_extracted_traits.trait_fields.

(** Every trait column is filled, [GENE] with the literal [None]. *)
Definition literal_none_row : row :=
  <["GENE" := PyStr "None"]> (uniform_row (PyStr "GWAS")).

(** Every trait column is filled but [GENE], which is null, and the cards of
    that row: all drawn as "Found" but the one of [GENE]. *)
Definition null_gene_row : row :=
  <["GENE" := PyNone]> (uniform_row (PyStr "GWAS")).

Definition null_gene_cards : list (string * bool) :=
  (fun entry => (entry.1, String.eqb entry.2 "gene"))
    <$> page_extracted_traits.trait_fields.

(** A row without the [EVIDENCE_TYPE] column, and one where it is empty. *)
Definition row_without_evidence : row :=
  delete "EVIDENCE_TYPE" (uniform_row (PyStr "GWAS")).

Definition row_empty_evidence : row :=
  <["EVIDENCE_TYPE" := PyStr ""]> (uniform_row (PyStr "GWAS")).

(** Rows whose citations cell is a confidence note. *)
Definition confidence_row (note : string) : row :=
  <["FIELD_CITATIONS" := PyStr note]> (uniform_row (PyStr "GWAS")).

(** Three pages of a document, out of order, page 2 without text. *)
Definition example_pages : list page_browser.page_row :=
  [ {| page_browser.PAGE_NUMBER := 3; page_browser.PAGE_TEXT := Some "Results";
       page_browser.IMAGE_PATH := Some "@pages/p3.png";
       page_browser.HAS_TEXT := Some true; page_browser.HAS_IMAGE := Some true |};
    {| page_browser.PAGE_NUMBER := 1; page_browser.PAGE_TEXT := Some "Abstract";
       page_browser.IMAGE_PATH := None;
       page_browser.HAS_TEXT := Some true; page_browser.HAS_IMAGE := Some false |};
    {| page_browser.PAGE_NUMBER := 2; page_browser.PAGE_TEXT := None;
       page_browser.IMAGE_PATH := Some "pages/p2.png";
       page_browser.HAS_TEXT := Some false; page_browser.HAS_IMAGE := Some true |} ].

(** Search rows: page 3 twice, a row without page number, page 1. *)
Definition example_search : list page_chatbot.search_row :=
  [ {| page_chatbot.PAGE_NUMBER := Some 3%Z; page_chatbot.PAGE_TEXT := Some "QTL on 3A" |};
    {| page_chatbot.PAGE_NUMBER := None; page_chatbot.PAGE_TEXT := Some "Methods" |};
    {| page_chatbot.PAGE_NUMBER := Some 1%Z; page_chatbot.PAGE_TEXT := None |};
    {| page_chatbot.PAGE_NUMBER := Some 3%Z; page_chatbot.PAGE_TEXT := Some "Table 2" |} ].


(** Three documents; the last two have the same file name and ids that
    start with the same eight characters, hence the same label. *)
Definition example_documents : list render_document_selector.document :=
  [ {| render_document_selector.DOCUMENT_ID := "a1b2c3d4-0001";
       render_document_selector.PDF_FILENAME := "wheat.pdf";
       render_document_selector.PAGE_COUNT := 12;
       render_document_selector.FILE_URL := "@stage/wheat.pdf" |};
    {| render_document_selector.DOCUMENT_ID := "ffff0000-0001";
       render_document_selector.PDF_FILENAME := "rice.pdf";
       render_document_selector.PAGE_COUNT := 8;
       render_document_selector.FILE_URL := "@stage/rice.pdf" |};
    {| render_document_selector.DOCUMENT_ID := "ffff0000-0002";
       render_document_selector.PDF_FILENAME := "rice.pdf";
       render_document_selector.PAGE_COUNT := 9;
       render_document_selector.FILE_URL := "@stage/rice2.pdf" |} ].

(** Three runs of [main]: the analytics page is drawn; then the chat page
    is chosen and the document selector stops the run; then the traits page
    is chosen and raises. *)
Definition example_runs : list (string * option string * (main.page -> option string)) :=
  [ ("📊 Analytics Dashboard", None, fun _ => None);
    ("🤖 Ask Questions", Some "StopException", fun _ => None);
    ("📋 Extracted Traits", None,
     fun p => match p with
              | main.page_extracted_traits => Some "KeyError"
              | _ => None
              end) ].

(** * Properties *)

(** ** Strings *)

Section string_facts.

Lemma str_app_nil (s : string) : "" ++ s = s.
Proof. reflexivity. Qed.

Lemma str_app_cons (a : ascii) (s t : string) : String a s ++ t = String a (s ++ t).
Proof. reflexivity. Qed.

Lemma lower_upper_char (c : ascii) :
  Str.lower_char (Str.upper_char c) = Str.lower_char c.
Proof. destruct c as [[] [] [] [] [] [] [] []]; reflexivity. Qed.

Lemma upper_lower_char (c : ascii) :
  Str.upper_char (Str.lower_char c) = Str.upper_char c.
Proof. destruct c as [[] [] [] [] [] [] [] []]; reflexivity. Qed.

Lemma str_map_map (f g : ascii -> ascii) (s : string) :
  Str.map f (Str.map g s) = Str.map (fun c => f (g c)) s.
Proof. induction s as [|c s IH]; simpl; [reflexivity | now rewrite IH]. Qed.

Lemma str_map_ext (f g : ascii -> ascii) (s : string) :
  (forall c, f c = g c) -> Str.map f s = Str.map g s.
Proof.
  intros Hfg. induction s as [|c s IH]; simpl; [reflexivity|].
  now rewrite Hfg, IH.
Qed.

Lemma lower_upper (s : string) : Str.lower (Str.upper s) = Str.lower s.
Proof.
  unfold Str.lower, Str.upper. rewrite str_map_map.
  apply str_map_ext, lower_upper_char.
Qed.

Lemma upper_lower (s : string) : Str.upper (Str.lower s) = Str.upper s.
Proof.
  unfold Str.lower, Str.upper. rewrite str_map_map.
  apply str_map_ext, upper_lower_char.
Qed.

Lemma str_map_truthy (f : ascii -> ascii) (s : string) :
  Str.truthy (Str.map f s) = Str.truthy s.
Proof. now destruct s. Qed.

Lemma prefix_map (f : ascii -> ascii) (n s : string) :
  String.prefix n s = true ->
  String.prefix (Str.map f n) (Str.map f s) = true.
Proof.
  revert n. induction s as [|b s IH]; intros [|a n]; simpl; try easy.
  destruct (ascii_dec a b) as [->|Hab]; [|discriminate].
  intros Hp. destruct (ascii_dec (f b) (f b)); [now apply IH | congruence].
Qed.

Lemma contains_map (f : ascii -> ascii) (n s : string) :
  Str.contains n s = true ->
  Str.contains (Str.map f n) (Str.map f s) = true.
Proof.
  induction s as [|b s IH]; cbn [Str.contains]; intros Hc.
  - apply orb_true_iff in Hc as [Hp|]; [|discriminate].
    apply (prefix_map f) in Hp. cbn [Str.map Str.contains] in *.
    now rewrite Hp.
  - apply orb_true_iff in Hc as [Hp|Hc].
    + apply (prefix_map f) in Hp. cbn [Str.map Str.contains] in *.
      now rewrite Hp.
    + cbn [Str.map Str.contains]. rewrite (IH Hc). apply orb_true_r.
Qed.

(** Looking for an upper-case needle in [s.upper()] is looking for the
    lower-case needle in [s.lower()]. *)
Lemma contains_fold_case (N n s : string) :
  Str.lower N = n -> Str.upper n = N ->
  Str.contains N (Str.upper s) = Str.contains n (Str.lower s).
Proof.
  intros HN Hn.
  destruct (Str.contains N (Str.upper s)) eqn:Hu;
    destruct (Str.contains n (Str.lower s)) eqn:Hl; try reflexivity.
  - apply (contains_map Str.lower_char) in Hu.
    fold (Str.lower N) in Hu. fold (Str.lower (Str.upper s)) in Hu.
    rewrite lower_upper, HN in Hu. congruence.
  - apply (contains_map Str.upper_char) in Hl.
    fold (Str.upper n) in Hl. fold (Str.upper (Str.lower s)) in Hl.
    rewrite upper_lower, Hn in Hl. congruence.
Qed.

Lemma lower_empty (s : string) : String.eqb (Str.lower s) "" = negb (Str.truthy s).
Proof. now destruct s. Qed.

Lemma repeat_app (c : ascii) (i j : nat) :
  Str.repeat c (i + j) = Str.repeat c i ++ Str.repeat c j.
Proof. induction i as [|i IH]; simpl; [reflexivity | now rewrite IH]. Qed.

Lemma lstrip_repeat (c : ascii) (i : nat) (s : string) :
  Str.lstrip c (Str.repeat c i ++ s) = Str.lstrip c s.
Proof.
  induction i as [|i IH]; simpl; [reflexivity|].
  now rewrite Ascii.eqb_refl.
Qed.

Lemma lstrip_repeat_only (c : ascii) (i : nat) : Str.lstrip c (Str.repeat c i) = "".
Proof.
  induction i as [|i IH]; simpl; [reflexivity|].
  now rewrite Ascii.eqb_refl.
Qed.

Lemma rstrip_repeat (c : ascii) (j : nat) : Str.rstrip c (Str.repeat c j) = "".
Proof.
  induction j as [|j IH]; simpl; [reflexivity|].
  now rewrite IH, Ascii.eqb_refl.
Qed.

Lemma rstrip_app_repeat (c : ascii) (s : string) (j : nat) :
  Str.rstrip c (s ++ Str.repeat c j) = Str.rstrip c s.
Proof.
  induction s as [|a s IH]; simpl; [apply rstrip_repeat | now rewrite IH].
Qed.

(** Any number of leading and trailing [c] goes. *)
Lemma strip_wrap (c : ascii) (i j : nat) (s : string) :
  Str.strip c (Str.repeat c i ++ s ++ Str.repeat c j) = Str.strip c s.
Proof.
  unfold Str.strip. rewrite lstrip_repeat.
  induction s as [|a s IH].
  - change ("" ++ Str.repeat c j) with (Str.repeat c j).
    now rewrite lstrip_repeat_only.
  - change (String a s ++ Str.repeat c j) with (String a (s ++ Str.repeat c j)).
    cbn [Str.lstrip]. destruct (Ascii.eqb a c); [exact IH|].
    exact (rstrip_app_repeat c (String a s) j).
Qed.

(** What [lstrip] and [rstrip] leave: the text without its run of leading
    (trailing) [c], which then neither starts (ends) with [c]. *)
Lemma lstrip_decompose (c : ascii) (s : string) :
  exists i, s = Str.repeat c i ++ Str.lstrip c s
            /\ String.prefix (String c "") (Str.lstrip c s) = false.
Proof.
  induction s as [|a s (i & Hs & Hp)]; [now exists 0%nat|]. simpl.
  destruct (Ascii.eqb a c) eqn:Hac.
  - apply Ascii.eqb_eq in Hac as ->. exists (S i).
    cbn [Str.repeat]. rewrite str_app_cons. now rewrite <- Hs.
  - exists 0%nat. split; [reflexivity|]. simpl.
    destruct (ascii_dec c a) as [->|]; [|reflexivity].
    now rewrite Ascii.eqb_refl in Hac.
Qed.

Lemma rstrip_decompose (c : ascii) (s : string) :
  exists j, s = Str.rstrip c s ++ Str.repeat c j
            /\ forall t, Str.rstrip c s <> t ++ String c "".
Proof.
  induction s as [|a s (j & Hs & Hend)].
  - exists 0%nat. split; [reflexivity|]. now intros [|? ?].
  - cbn [Str.rstrip]. destruct (Str.rstrip c s) as [|b r] eqn:Hr.
    + rewrite str_app_nil in Hs. destruct (Ascii.eqb a c) eqn:Hac.
      * apply Ascii.eqb_eq in Hac as ->. exists (S j).
        rewrite str_app_nil. cbn [Str.repeat].
        split; [now rewrite <- Hs | now intros [|? ?]].
      * exists j. rewrite str_app_cons, str_app_nil. split; [now rewrite <- Hs|].
        intros [|x t]; rewrite ?str_app_nil, ?str_app_cons; intros Heq;
          inversion Heq; subst.
        -- now rewrite Ascii.eqb_refl in Hac.
        -- now destruct t.
    + exists j. rewrite str_app_cons. split; [now rewrite <- Hs|].
      intros [|x t]; rewrite ?str_app_nil, ?str_app_cons; intros Heq;
        inversion Heq; subst.
      now apply (Hend t).
Qed.

Lemma rstrip_keeps_head (c a : ascii) (s : string) :
  Ascii.eqb a c = false ->
  exists r, Str.rstrip c (String a s) = String a r.
Proof.
  intros Hac. cbn [Str.rstrip]. rewrite Hac.
  destruct (Str.rstrip c s); eauto.
Qed.

(** [strip]: a run of [c] goes from each end, and what is left neither
    starts nor ends with [c]. *)
Lemma strip_decompose (c : ascii) (s : string) :
  exists i j,
    s = Str.repeat c i ++ Str.strip c s ++ Str.repeat c j
    /\ String.prefix (String c "") (Str.strip c s) = false
    /\ forall t, Str.strip c s <> t ++ String c "".
Proof.
  destruct (lstrip_decompose c s) as (i & Hl & Hhead).
  destruct (rstrip_decompose c (Str.lstrip c s)) as (j & Hr & Hend).
  exists i, j. unfold Str.strip. split; [|split; [|exact Hend]].
  - now rewrite <- Hr.
  - destruct (Str.lstrip c s) as [|a u]; [reflexivity|].
    assert (Hac : Ascii.eqb a c = false).
    { apply Ascii.eqb_neq. intros ->. simpl in Hhead.
      destruct (ascii_dec c c); [now destruct u | congruence]. }
    destruct (rstrip_keeps_head c a u Hac) as (r & ->). simpl.
    destruct (ascii_dec c a) as [->|]; [|reflexivity].
    now rewrite Ascii.eqb_refl in Hac.
Qed.

Lemma truthy_app (s t u : string) :
  Str.truthy t = true -> Str.truthy (s ++ t ++ u) = true.
Proof. destruct s, t; simpl; congruence. Qed.

End string_facts.

(** ** The counting loop *)

Section count_facts.
Implicit Types (p q : pyval -> bool) (fields : list string) (r : row).

Lemma count_loop_acc p r fields (n : nat) :
  foldl (fun n field => if p (row_get r field) then n + 1 else n) n fields
  = n + count_fields p fields r.
Proof.
  unfold count_fields. revert n.
  induction fields as [|f fields IH]; intros n; cbn [foldl]; [lia|].
  destruct (p (row_get r f)).
  - rewrite (IH (n + 1)), (IH (0 + 1)). lia.
  - apply IH.
Qed.

Lemma count_fields_cons p f fields r :
  count_fields p (f :: fields) r
  = (if p (row_get r f) then 1 else 0) + count_fields p fields r.
Proof.
  unfold count_fields at 1. simpl. rewrite count_loop_acc.
  destruct (p (row_get r f)); lia.
Qed.

Lemma count_fields_app p fields1 fields2 r :
  count_fields p (fields1 ++ fields2) r
  = count_fields p fields1 r + count_fields p fields2 r.
Proof.
  induction fields1 as [|f fields1 IH]; [reflexivity|].
  rewrite <- app_comm_cons, !count_fields_cons, IH. lia.
Qed.

Lemma count_fields_ext p q fields r r' :
  (forall f, f ∈ fields -> p (row_get r f) = q (row_get r' f)) ->
  count_fields p fields r = count_fields q fields r'.
Proof.
  induction fields as [|f fields IH]; intros Hpq; [reflexivity|].
  rewrite !count_fields_cons, Hpq by apply list_elem_of_here.
  rewrite IH; [reflexivity|].
  intros g Hg. apply Hpq. now apply list_elem_of_further.
Qed.

Lemma count_fields_le_length p fields r :
  count_fields p fields r <= length fields.
Proof.
  induction fields as [|f fields IH]; [reflexivity|].
  rewrite count_fields_cons. simpl. destruct (p (row_get r f)); lia.
Qed.

Lemma count_fields_mono p q fields r :
  (forall v, p v = true -> q v = true) ->
  count_fields p fields r <= count_fields q fields r.
Proof.
  intros Hpq. induction fields as [|f fields IH]; [reflexivity|].
  rewrite !count_fields_cons.
  destruct (p (row_get r f)) eqn:Hp; [rewrite (Hpq _ Hp); lia|].
  destruct (q (row_get r f)); lia.
Qed.

End count_facts.

(** ** The three copies of the scorer *)

Section scorer_facts.
Context `{PyRuntime}.

Lemma row_get_missing (r : row) (field : string) :
  r !! field = None -> row_get r field = PyNone.
Proof. unfold row_get. now intros ->. Qed.

Lemma selector_counts_analytics (v : pyval) :
  render_document_selector.counts v = page_analytics.counts v.
Proof. reflexivity. Qed.

Lemma is_valid_text (v : pyval) :
  page_extracted_traits.is_valid v
  = py_truthy v && Spec.valid_text (strip_quotes (py_str v)).
Proof.
  unfold page_extracted_traits.is_valid, Spec.valid_text.
  now destruct (py_truthy v).
Qed.

Lemma is_valid_counts (v : pyval) :
  page_extracted_traits.is_valid v = true ->
  render_document_selector.counts v = true.
Proof.
  unfold page_extracted_traits.is_valid, render_document_selector.counts.
  destruct (py_truthy v); [|discriminate]. cbv zeta.
  intros Hv. apply andb_true_iff in Hv as [Hv _]. exact Hv.
Qed.

(** The scorer's test on the trimmed text, read case-insensitively. *)
Lemma valid_text_sentinel (t : string) :
  Spec.valid_text t = negb (Spec.sentinel t).
Proof.
  unfold Spec.valid_text, Spec.sentinel.
  rewrite (contains_fold_case "NOT_FOUND" "not_found") by reflexivity.
  rewrite (contains_fold_case "NOT FOUND" "not found") by reflexivity.
  rewrite lower_empty, !negb_orb, negb_involutive. reflexivity.
Qed.

Lemma sentinel_not_found_text :
  page_extracted_traits.is_valid (PyStr "NOT_FOUND") = false
  /\ render_document_selector.counts (PyStr "NOT_FOUND") = false.
Proof. split; reflexivity. Qed.

(** A missing key scores like the cell ["NOT_FOUND"]. *)
Lemma count_fields_missing_as_sentinel (p : pyval -> bool) (r : row)
    (field : string) (fields : list string) :
  r !! field = None -> p PyNone = false -> p (PyStr "NOT_FOUND") = false ->
  count_fields p fields r = count_fields p fields (<[field := PyStr "NOT_FOUND"]> r).
Proof.
  intros Hmiss Hnone Hsent. apply count_fields_ext. intros f _.
  unfold row_get. destruct (decide (field = f)) as [->|Hne].
  - rewrite lookup_insert_eq, Hmiss. simpl. congruence.
  - now rewrite lookup_insert_ne.
Qed.

Lemma traits_page_accuracy (fields : list string) (r : row) :
  exists acc,
    page_extracted_traits.actual_accuracy fields r = Ok acc
    /\ Qeq acc
         (if (0 <? length fields)%nat
          then 100 * inject_Z (Z.of_nat (page_extracted_traits.actual_found fields r))
               / inject_Z (Z.of_nat (length fields))
          else 0)%Q.
Proof.
  unfold page_extracted_traits.actual_accuracy, page_extracted_traits.total_traits.
  destruct fields as [|f fields]; simpl.
  - exists 0%Q. split; reflexivity.
  - eexists. split; [reflexivity|]. unfold Qdiv. ring.
Qed.

Lemma selector_accuracy (f : string) (fields : list string) (r : row) :
  exists acc,
    render_document_selector.actual_accuracy (f :: fields) r = Ok acc
    /\ Qeq acc
         (100 * inject_Z (Z.of_nat (render_document_selector.actual_found (f :: fields) r))
          / inject_Z (Z.of_nat (length (f :: fields))))%Q.
Proof.
  unfold render_document_selector.actual_accuracy,
    render_document_selector.total_traits. simpl.
  eexists. split; [reflexivity|]. unfold Qdiv. ring.
Qed.

Lemma traits_page_score (fields : list string) (r : row) :
  exists acc,
    page_extracted_traits.score fields r
    = Ok (page_extracted_traits.actual_found fields r, length fields, acc,
          length fields - page_extracted_traits.actual_found fields r)
    /\ Qeq acc
         (if (0 <? length fields)%nat
          then 100 * inject_Z (Z.of_nat (page_extracted_traits.actual_found fields r))
               / inject_Z (Z.of_nat (length fields))
          else 0)%Q.
Proof.
  destruct (traits_page_accuracy fields r) as (acc & Hacc & Heq).
  exists acc. split; [|exact Heq].
  unfold page_extracted_traits.score. now rewrite Hacc.
Qed.

Lemma selector_quick_stats (r : row) :
  exists acc,
    render_document_selector.quick_stats r
    = Ok (render_document_selector.actual_found trait_field_names r, 15, acc)
    /\ Qeq acc
         (100 * inject_Z (Z.of_nat
                   (render_document_selector.actual_found trait_field_names r))
          / 15)%Q.
Proof.
  unfold render_document_selector.quick_stats, render_document_selector.score,
    trait_field_names.
  destruct (selector_accuracy "TRAIT" (tail trait_field_names) r)
    as (acc & Hacc & Heq).
  exists acc. split; [|exact Heq].
  unfold trait_field_names in Hacc. simpl tail in Hacc. now rewrite Hacc.
Qed.

(** The sidebar and the analytics page run the same loop. *)
Lemma selector_analytics_same_count (fields : list string) (r : row) :
  render_document_selector.actual_found fields r
  = page_analytics.extracted fields r.
Proof. reflexivity. Qed.

(** The extracted-traits page tests one more sentinel, so it never counts
    more than the other two. *)
Lemma traits_page_count_le (fields : list string) (r : row) :
  page_extracted_traits.actual_found fields r
  <= render_document_selector.actual_found fields r.
Proof. apply count_fields_mono, is_valid_counts. Qed.

(** The sidebar has no guard: over an empty field list its division
    raises. *)
Lemma selector_empty_list_raises (r : row) :
  render_document_selector.score [] r = Raise ZeroDivisionError.
Proof. reflexivity. Qed.

(** The accuracy the analytics page shows is the stored one, whatever the
    trait cells hold. *)
Lemma analytics_metric_is_stored (r : row) (q : Q) :
  r !! "EXTRACTION_ACCURACY_PCT" = Some (PyFloat q) ->
  page_analytics.accuracy_metric r = Ok q.
Proof.
  intros Hcell. unfold page_analytics.accuracy_metric, row_index.
  now rewrite Hcell.
Qed.

End scorer_facts.

(** ** Claims about the scorer *)

(** C4. The extracted-traits scorer never raises: for every field list and
    row its accuracy is [100 * found / total] when the list is not empty and
    [0] when it is empty, with [total] the length of the list. The sidebar
    copy divides without a guard, over the fixed list of fifteen fields, so
    it too returns [100 * found / 15] and its division by zero is never
    taken. *)
Theorem C4_accuracy_guarded `{PyRuntime} (fields : list string) (r : row) :
  (exists acc,
     page_extracted_traits.score fields r
     = Ok (page_extracted_traits.actual_found fields r, length fields, acc,
           length fields - page_extracted_traits.actual_found fields r)
     /\ Qeq acc
          (if (0 <? length fields)%nat
           then 100 * inject_Z (Z.of_nat (page_extracted_traits.actual_found fields r))
                / inject_Z (Z.of_nat (length fields))
           else 0)%Q)
  /\ page_extracted_traits.score [] r = Ok (0, 0, 0%Q, 0)
  /\ (exists acc,
        render_document_selector.quick_stats r
        = Ok (render_document_selector.actual_found trait_field_names r, 15, acc)
        /\ Qeq acc
             (100 * inject_Z (Z.of_nat
                       (render_document_selector.actual_found trait_field_names r))
              / 15)%Q).
Proof.
  split; [apply traits_page_score | split; [reflexivity | apply selector_quick_stats]].
Qed.

(** C7. A field whose key is missing from the row is not counted by any of
    the three copies of the scorer; the counts are those of the row that
    holds the sentinel ["NOT_FOUND"] under that key, and the scorer returns
    its result, it does not raise. *)
Theorem C7_missing_key_is_absence `{PyRuntime}
    (r : row) (field : string) (fields : list string) :
  r !! field = None ->
  (page_extracted_traits.is_valid (row_get r field) = false
   /\ render_document_selector.counts (row_get r field) = false
   /\ page_analytics.counts (row_get r field) = false)
  /\ (page_extracted_traits.actual_found fields r
      = page_extracted_traits.actual_found fields (<[field := PyStr "NOT_FOUND"]> r)
      /\ render_document_selector.actual_found fields r
         = render_document_selector.actual_found fields (<[field := PyStr "NOT_FOUND"]> r)
      /\ page_analytics.extracted fields r
         = page_analytics.extracted fields (<[field := PyStr "NOT_FOUND"]> r))
  /\ (exists s, page_extracted_traits.score fields r = Ok s)
  /\ (exists s, render_document_selector.quick_stats r = Ok s).
Proof.
  intros Hmiss. rewrite (row_get_missing r field Hmiss).
  split; [now repeat split|]. split.
  - repeat split; now apply count_fields_missing_as_sentinel.
  - split.
    + destruct (traits_page_score fields r) as (acc & Hs & _).
      eexists. exact Hs.
    + destruct (selector_quick_stats r) as (acc & Hs & _).
      eexists. exact Hs.
Qed.

Lemma C7_missing_key_witness :
  row_without_gene !! "GENE" = None
  /\ @page_extracted_traits.actual_found flat_runtime trait_field_names row_without_gene
     = @page_extracted_traits.actual_found flat_runtime trait_field_names
         (<["GENE" := PyStr "NOT_FOUND"]> row_without_gene).
Proof.
  assert (Hmiss : row_without_gene !! "GENE" = None) by (vm_compute; reflexivity).
  split; [exact Hmiss|].
  exact (proj1 (proj1 (proj2
    (@C7_missing_key_is_absence flat_runtime row_without_gene "GENE"
       trait_field_names Hmiss)))).
Defined.

(** C8. On the record [{trait: "Plant height", gene: "NOT_FOUND",
    chromosome: ""}] and the field list [[trait, gene, chromosome]] the
    scorer returns one field found out of three and the accuracy [100/3],
    which is 33.33 to two decimals; the two other copies count one field
    too. *)
Theorem C8_scoring_example `{PyRuntime} :
  (exists acc,
     page_extracted_traits.score example_fields example_record = Ok (1, 3, acc, 2)
     /\ Qeq acc (100 # 3)
     /\ (33325 # 1000 <= acc)%Q /\ (acc < 33335 # 1000)%Q)
  /\ render_document_selector.actual_found example_fields example_record = 1
  /\ page_analytics.extracted example_fields example_record = 1.
Proof.
  split; [|split; reflexivity].
  exists (100 # 3). split; [reflexivity|]. split; [reflexivity|].
  split; [discriminate | reflexivity].
Qed.

(** C1, as stated, fails: the cell [none] in lower case is "not found" in
    the specification's words, while the scorer of the extracted-traits page
    finds it valid and counts it (one field found in a row whose other
    fourteen trait cells hold the sentinel). *)
Lemma C1_lowercase_none_counted :
  @page_extracted_traits.is_valid flat_runtime (row_get lowercase_none_row "TRAIT")
  <> negb (Spec.not_found
             (strip_quotes
                (@py_str flat_runtime (row_get lowercase_none_row "TRAIT"))))
  /\ row_get lowercase_none_row "TRAIT" = PyStr "none"
  /\ Spec.not_found (strip_quotes (@py_str flat_runtime (PyStr "none"))) = true
  /\ @page_extracted_traits.is_valid flat_runtime (PyStr "none") = true
  /\ @page_extracted_traits.actual_found flat_runtime trait_field_names
       lowercase_none_row = 1.
Proof.
  split; [vm_compute; discriminate|].
  repeat split; vm_compute; reflexivity.
Qed.

(** C1, amended. For every row and field, with [v] the cell read by [get]
    and [t] its text with the quotes stripped: a cell that is false in
    Python (missing, [None], empty) is not counted; otherwise, when [t] is
    not one of the literals the trait card compares with, the scorer of the
    extracted-traits page counts the field exactly when [t] is not,
    case-insensitively, empty or a text containing not_found or not found;
    the sidebar copy does the same on the cells that do not contain
    not found; and a counted field adds one to the count of found fields. *)
Theorem C1_scorer_classification `{PyRuntime}
    (r : row) (field : string) (fields : list string) :
  (py_truthy (row_get r field) = false ->
   page_extracted_traits.is_valid (row_get r field) = false)
  /\ (py_truthy (row_get r field) = true ->
      Spec.card_literal (strip_quotes (py_str (row_get r field))) = false ->
      page_extracted_traits.is_valid (row_get r field)
      = negb (Spec.sentinel (strip_quotes (py_str (row_get r field)))))
  /\ (py_truthy (row_get r field) = true ->
      Spec.card_literal (strip_quotes (py_str (row_get r field))) = false ->
      Str.contains "not found"
        (Str.lower (strip_quotes (py_str (row_get r field)))) = false ->
      render_document_selector.counts (row_get r field)
      = negb (Spec.sentinel (strip_quotes (py_str (row_get r field)))))
  /\ page_extracted_traits.actual_found (fields ++ [field]) r
     = page_extracted_traits.actual_found fields r
       + (if page_extracted_traits.is_valid (row_get r field) then 1 else 0).
Proof.
  split; [|split; [|split]].
  - intros Hv. rewrite is_valid_text, Hv. reflexivity.
  - intros Hv _. rewrite is_valid_text, Hv, valid_text_sentinel. reflexivity.
  - intros Hv _ Hspace.
    unfold render_document_selector.counts, Spec.sentinel. rewrite Hv. cbv zeta.
    rewrite (contains_fold_case "NOT_FOUND" "not_found") by reflexivity.
    rewrite Hspace, lower_empty, orb_false_r, negb_orb, negb_involutive.
    reflexivity.
  - unfold page_extracted_traits.actual_found.
    rewrite count_fields_app, count_fields_cons.
    change (count_fields page_extracted_traits.is_valid [] r) with 0.
    destruct (page_extracted_traits.is_valid (row_get r field)); lia.
Qed.

Lemma C1_scorer_classification_witness :
  (py_truthy (row_get example_record "chromosome") = false
   /\ @page_extracted_traits.is_valid flat_runtime
        (row_get example_record "chromosome") = false)
  /\ (py_truthy (row_get lowercase_none_row "TRAIT") = true
      /\ Spec.card_literal
           (strip_quotes (@py_str flat_runtime (row_get lowercase_none_row "TRAIT")))
         = false
      /\ Str.contains "not found"
           (Str.lower
              (strip_quotes (@py_str flat_runtime (row_get lowercase_none_row "TRAIT"))))
         = false
      /\ @page_extracted_traits.is_valid flat_runtime
           (row_get lowercase_none_row "TRAIT")
         = negb (Spec.sentinel
                   (strip_quotes
                      (@py_str flat_runtime (row_get lowercase_none_row "TRAIT"))))
      /\ @render_document_selector.counts flat_runtime
           (row_get lowercase_none_row "TRAIT")
         = negb (Spec.sentinel
                   (strip_quotes
                      (@py_str flat_runtime (row_get lowercase_none_row "TRAIT"))))).
Proof.
  assert (Hempty : py_truthy (row_get example_record "chromosome") = false)
    by (vm_compute; reflexivity).
  assert (Hv : py_truthy (row_get lowercase_none_row "TRAIT") = true)
    by (vm_compute; reflexivity).
  assert (Hlit : Spec.card_literal
            (strip_quotes (@py_str flat_runtime (row_get lowercase_none_row "TRAIT")))
          = false) by (vm_compute; reflexivity).
  assert (Hspace : Str.contains "not found"
            (Str.lower
               (strip_quotes
                  (@py_str flat_runtime (row_get lowercase_none_row "TRAIT"))))
          = false) by (vm_compute; reflexivity).
  split.
  - split; [exact Hempty|].
    exact (proj1
      (@C1_scorer_classification flat_runtime example_record "chromosome" [])
      Hempty).
  - split; [exact Hv | split; [exact Hlit | split; [exact Hspace | split]]].
    + exact (proj1 (proj2
        (@C1_scorer_classification flat_runtime lowercase_none_row "TRAIT" []))
        Hv Hlit).
    + exact (proj1 (proj2 (proj2
        (@C1_scorer_classification flat_runtime lowercase_none_row "TRAIT" [])))
        Hv Hlit Hspace).
Defined.

(** C6, as stated, fails: a cell of three double quotes is not counted,
    because [strip] removes every quote and leaves the empty text; with one
    layer of quotes removed (either reading of "one layer") a quote is left
    over, a text the scorer's test accepts. *)
Lemma C6_triple_quote_layers :
  @page_extracted_traits.is_valid flat_runtime triple_quote
  <> py_truthy triple_quote
     && Spec.valid_text (Spec.trim_one_layer (@py_str flat_runtime triple_quote))
  /\ @page_extracted_traits.is_valid flat_runtime triple_quote
     <> py_truthy triple_quote
        && Spec.valid_text
             (Spec.trim_one_layer_each (@py_str flat_runtime triple_quote))
  /\ @py_str flat_runtime triple_quote = Str.repeat Str.dquote 3
  /\ strip_quotes (Str.repeat Str.dquote 3) = ""
  /\ Spec.trim_one_layer (Str.repeat Str.dquote 3) = Str.repeat Str.dquote 1
  /\ Spec.trim_one_layer_each (Str.repeat Str.dquote 3) = Str.repeat Str.dquote 1
  /\ @page_extracted_traits.is_valid flat_runtime triple_quote = false.
Proof.
  split; [vm_compute; discriminate|]. split; [vm_compute; discriminate|].
  repeat split; vm_compute; reflexivity.
Qed.

(** C6, amended. The scorer applies its test to [str(value)] without its
    quotes, where every leading and trailing double quote is removed and
    then every leading and trailing single quote: the text is a run of
    double quotes, a run of single quotes, the trimmed text, a run of single
    quotes, a run of double quotes, and neither remainder starts or ends
    with the quote removed from it. So wrapping a text in any number of
    double quotes does not change how it is classified, and the quoted
    sentinel classifies as the bare one, in the scorer and on the card. *)
Theorem C6_quote_stripping `{PyRuntime} (v : pyval) (s : string) (i j : nat) :
  page_extracted_traits.is_valid v
  = py_truthy v && Spec.valid_text (strip_quotes (py_str v))
  /\ (exists (u : string) (i1 j1 i2 j2 : nat),
        py_str v = Str.repeat Str.dquote i1 ++ u ++ Str.repeat Str.dquote j1
        /\ u = Str.repeat Str.squote i2 ++ strip_quotes (py_str v)
               ++ Str.repeat Str.squote j2
        /\ String.prefix (String Str.dquote "") u = false
        /\ (forall t, u <> t ++ String Str.dquote "")
        /\ String.prefix (String Str.squote "") (strip_quotes (py_str v)) = false
        /\ (forall t, strip_quotes (py_str v) <> t ++ String Str.squote ""))
  /\ page_extracted_traits.is_valid
       (PyStr (Str.repeat Str.dquote i ++ s ++ Str.repeat Str.dquote j))
     = page_extracted_traits.is_valid (PyStr s)
  /\ (page_extracted_traits.is_valid (PyStr (Str.dquoted "NOT_FOUND")) = false
      /\ page_extracted_traits.is_valid (PyStr (Str.squoted "NOT_FOUND")) = false
      /\ page_extracted_traits.is_valid (PyStr "NOT_FOUND") = false)
  /\ (page_extracted_traits.is_missing
        (page_extracted_traits.clean (PyStr (Str.dquoted "NOT_FOUND"))) = Ok true
      /\ page_extracted_traits.is_missing
           (page_extracted_traits.clean (PyStr "NOT_FOUND")) = Ok true).
Proof.
  split; [apply is_valid_text|]. split; [|split; [|now repeat split]].
  - destruct (strip_decompose Str.dquote (py_str v)) as (i1 & j1 & Hd & Hdh & Hde).
    destruct (strip_decompose Str.squote (Str.strip Str.dquote (py_str v)))
      as (i2 & j2 & Hs & Hsh & Hse).
    exists (Str.strip Str.dquote (py_str v)), i1, j1, i2, j2.
    unfold strip_quotes. now repeat split.
  - rewrite !is_valid_text. unfold strip_quotes. cbn [py_str].
    rewrite strip_wrap. destruct s as [|a s].
    + cbn [py_truthy Str.truthy]. now rewrite andb_false_r.
    + cbn [py_truthy]. now rewrite truthy_app.
Qed.

(** C9 at its failing input: in a row whose [TRAIT] cell is "NOT FOUND" and
    whose other trait cells are the sentinel, the sidebar and the analytics
    page count one field, the extracted-traits page counts none. *)
Theorem C9_copies_disagree `{PyRuntime} :
  render_document_selector.actual_found trait_field_names spaced_sentinel_row = 1
  /\ page_extracted_traits.actual_found trait_field_names spaced_sentinel_row = 0
  /\ page_analytics.extracted trait_field_names spaced_sentinel_row = 1.
Proof. repeat split. Qed.

(** C2 at its failing input: in a row where nothing was extracted and the
    stored accuracy is 100, the analytics page shows 100 next to its own
    count of zero extracted fields, while the extracted-traits page and the
    sidebar show the recomputed accuracy, zero. *)
Theorem C2_analytics_shows_stored_accuracy `{PyRuntime} :
  page_analytics.accuracy_metric stale_accuracy_row = Ok 100%Q
  /\ page_analytics.summary stale_accuracy_row = Ok (0, 15, 100%Q)
  /\ (exists acc,
        page_extracted_traits.stats stale_accuracy_row = Ok (0, 15, acc, 15)
        /\ Qeq acc 0)
  /\ (exists acc,
        render_document_selector.quick_stats stale_accuracy_row = Ok (0, 15, acc)
        /\ Qeq acc 0).
Proof.
  split; [reflexivity | split; [reflexivity|]].
  split; eexists; (split; [reflexivity | reflexivity]).
Qed.

(** ** The citation source tally *)

Section tally_facts.
Context `{PyRuntime}.
Implicit Types (p : pyval -> bool) (vs : list pyval) (m : gmap string pyval).

Lemma sum_ones_acc p vs (n : nat) :
  foldl (fun acc v => if p v then acc + 1 else acc) n vs = n + sum_ones_if p vs.
Proof.
  unfold sum_ones_if. revert n.
  induction vs as [|v vs IH]; intros n; cbn [foldl]; [lia|].
  destruct (p v).
  - rewrite (IH (n + 1)), (IH (0 + 1)). lia.
  - apply IH.
Qed.

Lemma sum_ones_if_cons p v vs :
  sum_ones_if p (v :: vs) = (if p v then 1 else 0) + sum_ones_if p vs.
Proof.
  unfold sum_ones_if at 1. cbn [foldl]. rewrite sum_ones_acc.
  destruct (p v); lia.
Qed.

(** The sum does not depend on the order in which the dict yields its
    values. *)
Lemma sum_ones_if_perm p vs vs' :
  vs ≡ₚ vs' -> sum_ones_if p vs = sum_ones_if p vs'.
Proof.
  induction 1 as [|v vs vs' _ IH|v w vs|vs1 vs2 vs3 _ IH1 _ IH2].
  - reflexivity.
  - now rewrite !sum_ones_if_cons, IH.
  - rewrite !sum_ones_if_cons. lia.
  - congruence.
Qed.

Lemma label_count_insert (label : string) m (k : string) (v : pyval) :
  m !! k = None ->
  page_analytics.label_count label (map_to_list (<[k := v]> m)).*2
  = page_analytics.label_count label (map_to_list m).*2
    + (if Str.contains label (py_str v) then 1 else 0).
Proof.
  intros Hk. unfold page_analytics.label_count.
  assert (Hp : (map_to_list (<[k := v]> m)).*2 ≡ₚ v :: (map_to_list m).*2).
  { rewrite map_to_list_insert by exact Hk. reflexivity. }
  rewrite (sum_ones_if_perm _ _ _ Hp), sum_ones_if_cons. lia.
Qed.

Lemma tally_insert (label : string) m (k : string) (v : pyval) :
  m !! k = None ->
  Spec.tally label (<[k := v]> m)
  = Spec.tally label m + (if Str.contains label (py_str v) then 1 else 0).
Proof.
  intros Hk. unfold Spec.tally.
  destruct (Str.contains label (py_str v)) eqn:Hv.
  - rewrite map_filter_insert_True by exact Hv.
    rewrite map_size_insert_None; [lia|].
    apply map_lookup_filter_None. now left.
  - rewrite map_filter_insert_False by (cbn; congruence).
    rewrite delete_id by exact Hk. lia.
Qed.

(** The three generator sums of the source compute the tally. *)
Lemma label_count_tally (label : string) m :
  page_analytics.label_count label (map_to_list m).*2 = Spec.tally label m.
Proof.
  induction m as [|k v m Hk IH] using map_ind.
  - unfold Spec.tally. rewrite map_to_list_empty, map_filter_empty, map_size_empty.
    reflexivity.
  - now rewrite label_count_insert, tally_insert, IH.
Qed.

Lemma tally_empty (label : string) : Spec.tally label ∅ = 0.
Proof. unfold Spec.tally. now rewrite map_filter_empty, map_size_empty. Qed.

(** The sources column on a row whose citations cell is a non-empty text. *)
Lemma sources_of_text (r : row) (text : string) :
  r !! "FIELD_CITATIONS" = Some (PyStr text) -> Str.truthy text = true ->
  page_analytics.sources r
  = match json_loads text with
    | Some (PyDict m) =>
        Ok (SourcesChart (Spec.tally "Phase1" m) (Spec.tally "Phase2" m)
              (Spec.tally "LLM" m))
    | _ => Ok SourcesWarning
    end.
Proof.
  intros Hcell Htext.
  unfold page_analytics.sources, page_analytics.sources_body, row_index.
  rewrite Hcell. cbn. rewrite Htext. cbn.
  destruct (json_loads text) as [[| | | | | |m]|]; cbn; try reflexivity.
  now rewrite !label_count_tally.
Qed.

(** The sources column on a row whose citations cell is false in Python. *)
Lemma sources_of_falsy (r : row) (cell : pyval) :
  r !! "FIELD_CITATIONS" = Some cell -> py_truthy cell = false ->
  page_analytics.sources r = Ok (SourcesChart 0 0 0).
Proof.
  intros Hcell Hfalse.
  unfold page_analytics.sources, page_analytics.sources_body, row_index.
  rewrite Hcell. cbn. rewrite Hfalse. cbn.
  now rewrite map_to_list_empty.
Qed.

(** The handler catches whatever the body raises. *)
Lemma sources_total (r : row) : exists view, page_analytics.sources r = Ok view.
Proof.
  unfold page_analytics.sources, try_except.
  destruct (page_analytics.sources_body r); eauto.
Qed.

Lemma citations_total (r : row) :
  exists c, page_extracted_traits.citations r = Ok c.
Proof.
  unfold page_extracted_traits.citations, try_except.
  match goal with |- context [match ?b with _ => _ end] => destruct b end; eauto.
Qed.

End tally_facts.

(** C5. When the citations text decodes to a dict, the chart shows, for
    each of the labels Phase1, Phase2 and LLM, the number of entries of the
    dict whose value, as a string, contains the label (compared as it is
    written: a lower-case phase1 is not counted). The labels are counted
    independently: a new entry adds one to every label its value contains.
    On the specification's example the chart shows two for Phase1 and one
    for Phase2. *)
Theorem C5_tally_counts `{PyRuntime}
    (r : row) (text : string) (m : gmap string pyval) (k : string) (v : pyval) :
  (r !! "FIELD_CITATIONS" = Some (PyStr text) -> Str.truthy text = true ->
   json_loads text = Some (PyDict m) ->
   page_analytics.sources r
   = Ok (SourcesChart (Spec.tally "Phase1" m) (Spec.tally "Phase2" m)
           (Spec.tally "LLM" m)))
  /\ (forall label,
        page_analytics.label_count label (map_to_list m).*2 = Spec.tally label m)
  /\ (m !! k = None ->
      forall label,
        Spec.tally label (<[k := v]> m)
        = Spec.tally label m + (if Str.contains label (py_str v) then 1 else 0))
  /\ Spec.tally "Phase1" {[ "gene" := PyStr "phase1 extraction" ]} = 0
  /\ (json_loads example_citations = Some (PyDict example_citations_dict) ->
      page_analytics.sources example_citations_row = Ok (SourcesChart 2 1 0)).
Proof.
  split; [|split; [|split; [|split]]].
  - intros Hcell Htext Hloads.
    now rewrite (sources_of_text r text Hcell Htext), Hloads.
  - intros label. apply label_count_tally.
  - intros Hk label. now apply tally_insert.
  - vm_compute. reflexivity.
  - intros Hloads.
    rewrite (sources_of_text example_citations_row example_citations)
      by (vm_compute; reflexivity).
    rewrite Hloads. vm_compute. reflexivity.
Qed.

Lemma C5_tally_counts_witness :
  (example_citations_row !! "FIELD_CITATIONS" = Some (PyStr example_citations)
   /\ Str.truthy example_citations = true
   /\ @json_loads flat_runtime example_citations
      = Some (PyDict example_citations_dict)
   /\ @page_analytics.sources flat_runtime example_citations_row
      = Ok (SourcesChart (@Spec.tally flat_runtime "Phase1" example_citations_dict)
              (@Spec.tally flat_runtime "Phase2" example_citations_dict)
              (@Spec.tally flat_runtime "LLM" example_citations_dict))
   /\ @page_analytics.sources flat_runtime example_citations_row
      = Ok (SourcesChart 2 1 0))
  /\ (example_citations_dict !! "snp_name" = None
      /\ forall label,
           @Spec.tally flat_runtime label
             (<["snp_name" := PyStr "Phase2 figure, LLM tie-break"]>
                example_citations_dict)
           = @Spec.tally flat_runtime label example_citations_dict
             + (if Str.contains label
                     (@py_str flat_runtime (PyStr "Phase2 figure, LLM tie-break"))
                then 1 else 0)).
Proof.
  assert (Hcell : example_citations_row !! "FIELD_CITATIONS"
                  = Some (PyStr example_citations)) by (vm_compute; reflexivity).
  assert (Htext : Str.truthy example_citations = true) by (vm_compute; reflexivity).
  assert (Hloads : @json_loads flat_runtime example_citations
                   = Some (PyDict example_citations_dict))
    by (vm_compute; reflexivity).
  assert (Hfresh : example_citations_dict !! "snp_name" = None)
    by (vm_compute; reflexivity).
  split.
  - split; [exact Hcell | split; [exact Htext | split; [exact Hloads | split]]].
    + exact (proj1
        (@C5_tally_counts flat_runtime example_citations_row example_citations
           example_citations_dict "snp_name" PyNone) Hcell Htext Hloads).
    + exact (proj2 (proj2 (proj2 (proj2
        (@C5_tally_counts flat_runtime example_citations_row example_citations
           example_citations_dict "snp_name" PyNone)))) Hloads).
  - split; [exact Hfresh|].
    exact (proj1 (proj2 (proj2
      (@C5_tally_counts flat_runtime example_citations_row example_citations
         example_citations_dict "snp_name"
         (PyStr "Phase2 figure, LLM tie-break")))) Hfresh).
Defined.

(** C3, as stated, fails: on the citations text [{not valid], which
    [json.loads] rejects, the sources column shows the warning; no tally,
    all-zero or other, is produced. *)
Lemma C3_malformed_json_warning :
  @page_analytics.sources flat_runtime malformed_citations_row
  <> Ok (SourcesChart 0 0 0)
  /\ malformed_citations_row !! "FIELD_CITATIONS" = Some (PyStr "{not valid")
  /\ @json_loads flat_runtime "{not valid" = None
  /\ @page_analytics.sources flat_runtime malformed_citations_row = Ok SourcesWarning.
Proof.
  split; [vm_compute; discriminate|].
  repeat split; vm_compute; reflexivity.
Qed.

(** C3, amended. For every row the sources column never raises. When the
    citations cell is false in Python ([None], the empty text) the chart
    shows zero for each of Phase1, Phase2 and LLM. When the cell is a text
    that [json.loads] rejects, or that decodes to something other than a
    dict, no tally is made: the warning is shown. On the extracted-traits
    page the same failure leaves the empty citations dict, in which every
    label counts zero, and that page does not raise either. *)
Theorem C3_tally_degrades `{PyRuntime} (r : row) (cell : pyval) (text : string) :
  (exists view, page_analytics.sources r = Ok view)
  /\ (r !! "FIELD_CITATIONS" = Some cell -> py_truthy cell = false ->
      page_analytics.sources r = Ok (SourcesChart 0 0 0))
  /\ (r !! "FIELD_CITATIONS" = Some (PyStr text) -> Str.truthy text = true ->
      json_loads text = None ->
      page_analytics.sources r = Ok SourcesWarning
      /\ page_extracted_traits.citations r = Ok (PyDict ∅))
  /\ (r !! "FIELD_CITATIONS" = Some (PyStr text) -> Str.truthy text = true ->
      forall j, json_loads text = Some j -> (forall m, j <> PyDict m) ->
      page_analytics.sources r = Ok SourcesWarning)
  /\ (exists c, page_extracted_traits.citations r = Ok c)
  /\ (forall label, Spec.tally label ∅ = 0).
Proof.
  split; [apply sources_total|]. split; [apply sources_of_falsy|].
  split; [|split; [|split; [apply citations_total | apply tally_empty]]].
  - intros Hcell Htext Hloads. split.
    + now rewrite (sources_of_text r text Hcell Htext), Hloads.
    + unfold page_extracted_traits.citations, row_index.
      rewrite Hcell. cbn. rewrite Htext. cbn. now rewrite Hloads.
  - intros Hcell Htext j Hloads Hshape.
    rewrite (sources_of_text r text Hcell Htext), Hloads.
    destruct j; try reflexivity. now destruct (Hshape m).
Qed.

Lemma C3_tally_degrades_witness :
  (malformed_citations_row !! "FIELD_CITATIONS" = Some (PyStr "{not valid")
   /\ Str.truthy "{not valid" = true
   /\ @json_loads flat_runtime "{not valid" = None
   /\ @page_analytics.sources flat_runtime malformed_citations_row = Ok SourcesWarning)
  /\ (no_citations_row !! "FIELD_CITATIONS" = Some PyNone
      /\ py_truthy PyNone = false
      /\ @page_analytics.sources flat_runtime no_citations_row
         = Ok (SourcesChart 0 0 0))
  /\ (null_citations_row !! "FIELD_CITATIONS" = Some (PyStr "null")
      /\ @json_loads flat_runtime "null" = Some PyNone
      /\ @page_analytics.sources flat_runtime null_citations_row = Ok SourcesWarning).
Proof.
  assert (Hcell : malformed_citations_row !! "FIELD_CITATIONS"
                  = Some (PyStr "{not valid")) by (vm_compute; reflexivity).
  assert (Hloads : @json_loads flat_runtime "{not valid" = None)
    by (vm_compute; reflexivity).
  assert (Hnone : no_citations_row !! "FIELD_CITATIONS" = Some PyNone)
    by (vm_compute; reflexivity).
  assert (Hnull : null_citations_row !! "FIELD_CITATIONS" = Some (PyStr "null"))
    by (vm_compute; reflexivity).
  assert (Hlit : @json_loads flat_runtime "null" = Some PyNone)
    by (vm_compute; reflexivity).
  split; [|split].
  - split; [exact Hcell | split; [reflexivity | split; [exact Hloads|]]].
    exact (proj1 (proj1 (proj2 (proj2
      (@C3_tally_degrades flat_runtime malformed_citations_row PyNone "{not valid")))
      Hcell eq_refl Hloads)).
  - split; [exact Hnone | split; [reflexivity|]].
    exact (proj1 (proj2
      (@C3_tally_degrades flat_runtime no_citations_row PyNone ""))
      Hnone eq_refl).
  - split; [exact Hnull | split; [exact Hlit|]].
    refine (proj1 (proj2 (proj2 (proj2
      (@C3_tally_degrades flat_runtime null_citations_row PyNone "null"))))
      Hnull eq_refl PyNone Hlit _).
    intros m. discriminate.
Defined.

(** ** The trait cards *)

Section card_facts.
Context `{PyRuntime}.

(** [is_missing] never raises on a cleaned cell, and its value is
    [card_missing]. *)
Lemma is_missing_clean (v : pyval) :
  page_extracted_traits.is_missing (page_extracted_traits.clean v)
  = Ok (Spec.card_missing v).
Proof.
  unfold page_extracted_traits.is_missing, page_extracted_traits.clean,
    Spec.card_missing.
  destruct (py_truthy v) eqn:Hv; [|now rewrite Hv].
  cbn [py_truthy page_extracted_traits.py_eq_str page_extracted_traits.py_upper].
  cbv zeta. set (t := strip_quotes (py_str v)).
  destruct (Str.truthy t); [|reflexivity]. cbn.
  destruct (String.eqb t "Not in paper"); [reflexivity|]. cbn.
  destruct (Str.contains "NOT_FOUND" (Str.upper t)); [reflexivity|]. cbn.
  destruct (Str.contains "NOT FOUND" (Str.upper t)); [reflexivity|]. cbn.
  destruct (String.eqb t "None"); reflexivity.
Qed.

(** A card is drawn as "Found" exactly when the scorer counts the cell and
    the trimmed text is not one of the three literals. *)
Lemma card_found_iff (v : pyval) :
  negb (Spec.card_missing v)
  = page_extracted_traits.is_valid v
    && negb (Spec.card_literal (strip_quotes (py_str v))).
Proof.
  unfold Spec.card_missing, page_extracted_traits.is_valid, Spec.card_literal.
  destruct (py_truthy v); [|reflexivity]. cbv zeta.
  set (t := strip_quotes (py_str v)).
  destruct (Str.truthy t), (String.eqb t "Not in paper"),
    (Str.contains "NOT_FOUND" (Str.upper t)),
    (Str.contains "NOT FOUND" (Str.upper t)),
    (String.eqb t "None"), (String.eqb t "NULL"); reflexivity.
Qed.

(** The same with the literal test on the cell: a cell that is false in
    Python is neither counted nor drawn as "Found". *)
Lemma card_found_cell (v : pyval) :
  negb (Spec.card_missing v)
  = page_extracted_traits.is_valid v && negb (Spec.literal_cell v).
Proof.
  rewrite card_found_iff. unfold Spec.literal_cell, page_extracted_traits.is_valid.
  now destruct (py_truthy v).
Qed.

Lemma card_of_cell (r : row) (entry : string * string) (value : pyval) :
  r !! Str.upper entry.2 = Some value ->
  page_extracted_traits.card r entry = Ok (entry.1, Spec.card_missing value).
Proof.
  intros Hcell. unfold page_extracted_traits.card, row_index.
  rewrite Hcell. cbn. now rewrite is_missing_clean.
Qed.

Lemma card_raises (r : row) (entry : string * string) :
  r !! Str.upper entry.2 = None ->
  page_extracted_traits.card r entry = Raise (KeyError (Str.upper entry.2)).
Proof.
  intros Hcell. unfold page_extracted_traits.card, row_index.
  now rewrite Hcell.
Qed.

Lemma found_cards_cons (label : string) (missing : bool) (cs : list (string * bool)) :
  Spec.found_cards ((label, missing) :: cs)
  = (if missing then 0 else 1) + Spec.found_cards cs.
Proof.
  unfold Spec.found_cards. now destruct missing.
Qed.

(** The cards drawn as "Found" are counted by the loop that tests
    [card_missing] over the card columns. *)
Lemma found_cards_count (entries : list (string * string)) (r : row)
    (cs : list (string * bool)) :
  page_extracted_traits.cards_of entries r = Ok cs ->
  Spec.found_cards cs
  = count_fields (fun v => negb (Spec.card_missing v))
      ((fun entry => Str.upper entry.2) <$> entries) r.
Proof.
  unfold page_extracted_traits.cards_of. revert cs.
  induction entries as [|entry entries IH]; intros cs Hcs.
  - cbn in Hcs. injection Hcs as <-. reflexivity.
  - cbn [mapM] in Hcs. rewrite fmap_cons, count_fields_cons.
    destruct (r !! Str.upper entry.2) as [value|] eqn:Hcell.
    + rewrite (card_of_cell r entry value Hcell) in Hcs. cbn in Hcs.
      destruct (mapM (page_extracted_traits.card r) entries) as [k|e] eqn:Hk;
        cbn in Hcs; [|discriminate].
      injection Hcs as <-. rewrite found_cards_cons, (IH k eq_refl).
      unfold row_get. rewrite Hcell. simpl.
      now destruct (Spec.card_missing value).
    + rewrite (card_raises r entry Hcell) in Hcs. discriminate.
Qed.

(** The fifteen scored fields are the card columns with [EVIDENCE_TYPE]
    put back in twelfth place. *)
Lemma trait_field_names_cards :
  trait_field_names
  = (take 11 Spec.card_columns ++ ["EVIDENCE_TYPE"]
     ++ drop 11 Spec.card_columns)%list.
Proof. vm_compute. reflexivity. Qed.

Lemma actual_found_split (r : row) :
  page_extracted_traits.actual_found trait_field_names r
  = count_fields page_extracted_traits.is_valid Spec.card_columns r
    + (if page_extracted_traits.is_valid (row_get r "EVIDENCE_TYPE") then 1 else 0).
Proof.
  unfold page_extracted_traits.actual_found.
  rewrite trait_field_names_cards, !count_fields_app, count_fields_cons.
  change (count_fields page_extracted_traits.is_valid [] r) with 0.
  rewrite <- (take_drop 11 Spec.card_columns) at 3.
  rewrite count_fields_app.
  destruct (page_extracted_traits.is_valid (row_get r "EVIDENCE_TYPE")); lia.
Qed.

End card_facts.

(** C10, as stated, fails: in a row whose fifteen trait cells all hold a
    plain value, the fourteen cards are all drawn as "Found" while the stats
    header shows fifteen fields found; [EVIDENCE_TYPE] is scored but has no
    card. *)
Lemma C10_evidence_type_has_no_card :
  @page_extracted_traits.cards flat_runtime (uniform_row (PyStr "GWAS"))
  = Ok all_found_cards
  /\ Spec.found_cards all_found_cards
     <> @page_extracted_traits.actual_found flat_runtime trait_field_names
          (uniform_row (PyStr "GWAS"))
  /\ Spec.found_cards all_found_cards = 14
  /\ @page_extracted_traits.actual_found flat_runtime trait_field_names
       (uniform_row (PyStr "GWAS")) = 15.
Proof.
  split; [vm_compute; reflexivity|]. split; [vm_compute; discriminate|].
  split; vm_compute; reflexivity.
Qed.

(** C10, amended. A card whose column is in the row is drawn without an
    error; a card drawn as "Found" is a field the scorer counted, and unless
    the cell holds one of the literals the card compares with (which a null
    or empty cell does not), the card is drawn as "Not Found" exactly when
    the scorer did not count the field. So the number of cards drawn as
    "Found" is at most the count of found fields, and when no card column
    holds such a literal it is that count less one for [EVIDENCE_TYPE],
    which is scored and has no card, if it was counted. *)
Theorem C10_cards_agree_with_count `{PyRuntime}
    (r : row) (cs : list (string * bool)) (entry : string * string) (value : pyval) :
  (r !! Str.upper entry.2 = Some value ->
   exists missing,
     page_extracted_traits.card r entry = Ok (entry.1, missing)
     /\ (missing = false ->
         page_extracted_traits.is_valid (row_get r (Str.upper entry.2)) = true)
     /\ (Spec.literal_cell value = false ->
         missing
         = negb (page_extracted_traits.is_valid (row_get r (Str.upper entry.2)))))
  /\ (page_extracted_traits.cards r = Ok cs ->
      Spec.found_cards cs
      <= page_extracted_traits.actual_found trait_field_names r)
  /\ (page_extracted_traits.cards r = Ok cs ->
      forallb (fun column => negb (Spec.literal_cell (row_get r column)))
        Spec.card_columns = true ->
      Spec.found_cards cs
      + (if page_extracted_traits.is_valid (row_get r "EVIDENCE_TYPE") then 1 else 0)
      = page_extracted_traits.actual_found trait_field_names r).
Proof.
  split; [|split].
  - intros Hcell. exists (Spec.card_missing value).
    split; [now apply card_of_cell|].
    unfold row_get. rewrite Hcell. simpl.
    pose proof (card_found_cell value) as Hiff. split.
    + intros Hfound. rewrite Hfound in Hiff. simpl in Hiff.
      symmetry in Hiff. now apply andb_true_iff in Hiff as [Hv _].
    + intros Hlit. rewrite Hlit, andb_true_r in Hiff.
      rewrite <- Hiff. now rewrite negb_involutive.
  - intros Hcs. rewrite (found_cards_count _ r cs Hcs), actual_found_split.
    fold Spec.card_columns.
    etransitivity; [|apply Nat.le_add_r].
    apply count_fields_mono. intros v Hv.
    rewrite card_found_cell in Hv. now apply andb_true_iff in Hv as [Hv _].
  - intros Hcs Hlit. rewrite (found_cards_count _ r cs Hcs), actual_found_split.
    fold Spec.card_columns. f_equal.
    apply count_fields_ext. intros column Hcol.
    rewrite forallb_forall in Hlit.
    specialize (Hlit column (proj1 (list_elem_of_In _ _) Hcol)).
    apply negb_true_iff in Hlit.
    now rewrite card_found_cell, Hlit, andb_true_r.
Qed.

Lemma C10_cards_agree_with_count_witness :
  (@page_extracted_traits.cards flat_runtime null_gene_row = Ok null_gene_cards
   /\ forallb
        (fun column =>
           negb (@Spec.literal_cell flat_runtime (row_get null_gene_row column)))
        Spec.card_columns = true
   /\ Spec.found_cards null_gene_cards = 13
   /\ Spec.found_cards null_gene_cards
      + (if @page_extracted_traits.is_valid flat_runtime
              (row_get null_gene_row "EVIDENCE_TYPE")
         then 1 else 0)
      = @page_extracted_traits.actual_found flat_runtime trait_field_names
          null_gene_row)
  /\ Spec.found_cards null_gene_cards
     <= @page_extracted_traits.actual_found flat_runtime trait_field_names
          null_gene_row
  /\ (null_gene_row !! Str.upper "gene" = Some PyNone
      /\ @Spec.literal_cell flat_runtime PyNone = false
      /\ exists missing,
           @page_extracted_traits.card flat_runtime null_gene_row ("Gene", "gene")
           = Ok ("Gene", missing)
           /\ missing
              = negb (@page_extracted_traits.is_valid flat_runtime
                        (row_get null_gene_row (Str.upper "gene")))).
Proof.
  assert (Hcs : @page_extracted_traits.cards flat_runtime null_gene_row
                = Ok null_gene_cards) by (vm_compute; reflexivity).
  assert (Hlit : forallb
            (fun column =>
               negb (@Spec.literal_cell flat_runtime (row_get null_gene_row column)))
            Spec.card_columns = true) by (vm_compute; reflexivity).
  assert (Hcell : null_gene_row !! Str.upper "gene" = Some PyNone)
    by (vm_compute; reflexivity).
  assert (Hnull : @Spec.literal_cell flat_runtime PyNone = false) by reflexivity.
  split; [|split].
  - split; [exact Hcs | split; [exact Hlit | split; [vm_compute; reflexivity|]]].
    exact (proj2 (proj2
      (@C10_cards_agree_with_count flat_runtime null_gene_row
         null_gene_cards ("Gene", "gene") PyNone)) Hcs Hlit).
  - exact (proj1 (proj2
      (@C10_cards_agree_with_count flat_runtime null_gene_row
         null_gene_cards ("Gene", "gene") PyNone)) Hcs).
  - split; [exact Hcell | split; [exact Hnull|]].
    destruct (proj1
      (@C10_cards_agree_with_count flat_runtime null_gene_row
         null_gene_cards ("Gene", "gene") PyNone) Hcell)
      as (missing & Hcard & _ & Hagree).
    exists missing. split; [exact Hcard | exact (Hagree Hnull)].
Defined.

(** The cell [None] as a text: the card of [GENE] is drawn as
    "Not Found", yet the scorer counts the field. *)
Example literal_none_card_and_count :
  @page_extracted_traits.card flat_runtime literal_none_row ("Gene", "gene")
  = Ok ("Gene", true)
  /\ @page_extracted_traits.is_valid flat_runtime (row_get literal_none_row "GENE")
     = true
  /\ @page_extracted_traits.actual_found flat_runtime trait_field_names
       literal_none_row = 15.
Proof. repeat split; vm_compute; reflexivity. Qed.

(** * Further properties of the code *)

(** ** The scorer: bounds and agreement *)

Section scorer_bounds.
Context `{PyRuntime}.

Lemma percent_bounds (a b : nat) :
  a <= b -> 0 < b ->
  (0 <= 100 * inject_Z (Z.of_nat a) / inject_Z (Z.of_nat b))%Q
  /\ (100 * inject_Z (Z.of_nat a) / inject_Z (Z.of_nat b) <= 100)%Q.
Proof.
  intros Hab Hb.
  assert (Hb' : (0 < inject_Z (Z.of_nat b))%Q).
  { change 0%Q with (inject_Z 0). rewrite <- Zlt_Qlt. lia. }
  assert (Ha' : (0 <= inject_Z (Z.of_nat a))%Q).
  { change 0%Q with (inject_Z 0). rewrite <- Zle_Qle. lia. }
  split.
  - apply Qle_shift_div_l; [exact Hb'|]. rewrite Qmult_0_l.
    apply Qmult_le_0_compat; [discriminate | exact Ha'].
  - apply Qle_shift_div_r; [exact Hb'|].
    apply Qmult_le_l; [reflexivity|]. rewrite <- Zle_Qle. lia.
Qed.


(** X2. On every row the sidebar shows a count of at most 15 and an
    accuracy between 0 and 100, and the bar chart of the analytics page
    shows that same count as "Extracted" and the rest of the 15 as "Not
    Reported". *)
Theorem selector_and_analytics_bounds (r : row) :
  (exists acc,
     render_document_selector.quick_stats r
     = Ok (render_document_selector.actual_found trait_field_names r, 15, acc)
     /\ render_document_selector.actual_found trait_field_names r <= 15
     /\ (0 <= acc)%Q /\ (acc <= 100)%Q)
  /\ page_analytics.extracted trait_field_names r
     = render_document_selector.actual_found trait_field_names r
  /\ page_analytics.extracted trait_field_names r
     + page_analytics.not_reported trait_field_names r = 15.
Proof.
  pose proof (count_fields_le_length render_document_selector.counts
                trait_field_names r) as Hle.
  change (length trait_field_names) with 15 in Hle.
  fold (render_document_selector.actual_found trait_field_names r) in Hle.
  split; [|split; [reflexivity|]].
  - destruct (selector_quick_stats r) as (acc & Hstats & Hacc).
    exists acc. split; [exact Hstats|]. split; [exact Hle|].
    rewrite Hacc. apply (percent_bounds _ 15 Hle). lia.
  - unfold page_analytics.not_reported.
    change (length trait_field_names) with 15.
    rewrite <- (selector_analytics_same_count trait_field_names r). lia.
Qed.

(** X3. On a row none of whose scored cells contains NOT FOUND, spelled
    with a space in any case, the three copies of the scorer count the same
    fields. *)
Theorem copies_agree_without_spaced_sentinel (fields : list string) (r : row) :
  forallb
    (fun field =>
       negb (Str.contains "NOT FOUND"
               (Str.upper (strip_quotes (py_str (row_get r field))))))
    fields = true ->
  page_extracted_traits.actual_found fields r
  = render_document_selector.actual_found fields r
  /\ page_extracted_traits.actual_found fields r
     = page_analytics.extracted fields r.
Proof.
  intros Hclean. rewrite forallb_forall in Hclean.
  assert (Heq : page_extracted_traits.actual_found fields r
                = render_document_selector.actual_found fields r).
  { apply count_fields_ext. intros f Hf.
    specialize (Hclean f (proj1 (list_elem_of_In _ _) Hf)).
    unfold page_extracted_traits.is_valid, render_document_selector.counts.
    destruct (py_truthy (row_get r f)); [|reflexivity]. cbv zeta.
    now rewrite Hclean, andb_true_r. }
  split; [exact Heq|]. now rewrite Heq.
Qed.

End scorer_bounds.

Lemma copies_agree_without_spaced_sentinel_witness :
  forallb
    (fun field =>
       negb (Str.contains "NOT FOUND"
               (Str.upper
                  (strip_quotes (@py_str flat_runtime (row_get example_record field))))))
    example_fields = true
  /\ @page_extracted_traits.actual_found flat_runtime example_fields example_record
     = @render_document_selector.actual_found flat_runtime example_fields
         example_record.
Proof.
  assert (Hclean : forallb
            (fun field =>
               negb (Str.contains "NOT FOUND"
                       (Str.upper
                          (strip_quotes
                             (@py_str flat_runtime (row_get example_record field))))))
            example_fields = true) by (vm_compute; reflexivity).
  split; [exact Hclean|].
  exact (proj1
    (@copies_agree_without_spaced_sentinel flat_runtime example_fields
       example_record Hclean)).
Defined.

(** ** The extracted-traits page: cards, evidence type, citation counts *)

Section traits_page_more.
Context `{PyRuntime}.

Lemma cards_of_first_missing (entries : list (string * string)) (r : row) :
  match Obs.first_missing r entries with
  | Some entry =>
      page_extracted_traits.cards_of entries r
      = Raise (KeyError (Str.upper entry.2))
  | None =>
      exists cs,
        page_extracted_traits.cards_of entries r = Ok cs
        /\ cs.*1 = entries.*1
  end.
Proof.
  unfold page_extracted_traits.cards_of.
  induction entries as [|entry entries IH]; cbn [Obs.first_missing mapM].
  - exists []. now split.
  - destruct (r !! Str.upper entry.2) as [value|] eqn:Hcell.
    + rewrite (card_of_cell r entry value Hcell). cbn.
      destruct (Obs.first_missing r entries) as [missing|].
      * now rewrite IH.
      * destruct IH as (cs & -> & Hlabels). cbn.
        eexists. split; [reflexivity|]. cbn. now rewrite Hlabels.
    + now rewrite (card_raises r entry Hcell).
Qed.

(** X4. The trait cards are drawn only on a row that has all fourteen card
    columns: then there are fourteen cards, labelled in display order;
    otherwise the loop raises [KeyError] for the first column, in display
    order, that the row lacks. *)
Theorem cards_need_every_column (r : row) :
  match Obs.first_missing r page_extracted_traits.trait_fields with
  | Some entry =>
      page_extracted_traits.cards r = Raise (KeyError (Str.upper entry.2))
  | None =>
      exists cs,
        page_extracted_traits.cards r = Ok cs
        /\ cs.*1 = page_extracted_traits.trait_fields.*1
        /\ length cs = 14
  end.
Proof.
  pose proof (cards_of_first_missing page_extracted_traits.trait_fields r) as Hc.
  fold (page_extracted_traits.cards r) in Hc.
  destruct (Obs.first_missing r page_extracted_traits.trait_fields); [exact Hc|].
  destruct Hc as (cs & Hcs & Hlabels). exists cs. split; [exact Hcs|].
  split; [exact Hlabels|].
  rewrite <- (length_fmap fst cs), Hlabels. reflexivity.
Qed.

(** X5. The stats header needs the [EVIDENCE_TYPE] column: without it the
    header raises [KeyError] although the score itself is computed; with it
    the header shows the cell when it is true in Python and GWAS when it is
    [None] or empty, so never an empty evidence type. *)
Theorem stats_header_evidence_type (r : row) (v : pyval) :
  (r !! "EVIDENCE_TYPE" = None ->
   page_extracted_traits.stats_header r = Raise (KeyError "EVIDENCE_TYPE")
   /\ exists s, page_extracted_traits.stats r = Ok s)
  /\ (r !! "EVIDENCE_TYPE" = Some v ->
      exists s e,
        page_extracted_traits.stats r = Ok s
        /\ page_extracted_traits.stats_header r = Ok (s, e)
        /\ py_truthy e = true
        /\ e = (if py_truthy v then v else PyStr "GWAS")).
Proof.
  destruct (traits_page_score trait_field_names r) as (acc & Hscore & _).
  fold (page_extracted_traits.stats r) in Hscore.
  unfold page_extracted_traits.stats_header,
    page_extracted_traits.evidence_type_stat, row_index.
  rewrite Hscore. split; intros Hcell; rewrite Hcell; cbn.
  - split; [reflexivity | eauto].
  - eexists _, _. split; [reflexivity|]. split; [reflexivity|].
    split; [|reflexivity]. now destruct (py_truthy v) eqn:Hv.
Qed.

(** X6. When the citations text decodes to a dict, each of the three counts
    of the sources chart is at most the number of entries of the dict. *)
Theorem sources_counts_bounded (r : row) (text : string) (m : gmap string pyval) :
  r !! "FIELD_CITATIONS" = Some (PyStr text) -> Str.truthy text = true ->
  json_loads text = Some (PyDict m) ->
  exists phase1_count phase2_count llm_count,
    page_analytics.sources r = Ok (SourcesChart phase1_count phase2_count llm_count)
    /\ phase1_count <= size m /\ phase2_count <= size m /\ llm_count <= size m.
Proof.
  intros Hcell Htext Hloads.
  rewrite (sources_of_text r text Hcell Htext), Hloads.
  eexists _, _, _. split; [reflexivity|].
  unfold Spec.tally. repeat split; apply map_size_filter.
Qed.

End traits_page_more.

Lemma stats_header_evidence_type_witness :
  (row_without_evidence !! "EVIDENCE_TYPE" = None
   /\ @page_extracted_traits.stats_header flat_runtime row_without_evidence
      = Raise (KeyError "EVIDENCE_TYPE"))
  /\ (row_empty_evidence !! "EVIDENCE_TYPE" = Some (PyStr "")
      /\ exists s e,
           @page_extracted_traits.stats flat_runtime row_empty_evidence = Ok s
           /\ @page_extracted_traits.stats_header flat_runtime row_empty_evidence
              = Ok (s, e)
           /\ py_truthy e = true
           /\ e = (if py_truthy (PyStr "") then PyStr "" else PyStr "GWAS")).
Proof.
  assert (Hnone : row_without_evidence !! "EVIDENCE_TYPE" = None)
    by (vm_compute; reflexivity).
  assert (Hempty : row_empty_evidence !! "EVIDENCE_TYPE" = Some (PyStr ""))
    by (vm_compute; reflexivity).
  split.
  - split; [exact Hnone|].
    exact (proj1 (proj1
      (@stats_header_evidence_type flat_runtime row_without_evidence PyNone)
      Hnone)).
  - split; [exact Hempty|].
    exact (proj2
      (@stats_header_evidence_type flat_runtime row_empty_evidence (PyStr ""))
      Hempty).
Defined.

Lemma sources_counts_bounded_witness :
  example_citations_row !! "FIELD_CITATIONS" = Some (PyStr example_citations)
  /\ Str.truthy example_citations = true
  /\ @json_loads flat_runtime example_citations = Some (PyDict example_citations_dict)
  /\ exists phase1_count phase2_count llm_count,
       @page_analytics.sources flat_runtime example_citations_row
       = Ok (SourcesChart phase1_count phase2_count llm_count)
       /\ phase1_count <= size example_citations_dict
       /\ phase2_count <= size example_citations_dict
       /\ llm_count <= size example_citations_dict.
Proof.
  assert (Hcell : example_citations_row !! "FIELD_CITATIONS"
                  = Some (PyStr example_citations)) by (vm_compute; reflexivity).
  assert (Htext : Str.truthy example_citations = true) by (vm_compute; reflexivity).
  assert (Hloads : @json_loads flat_runtime example_citations
                   = Some (PyDict example_citations_dict))
    by (vm_compute; reflexivity).
  split; [exact Hcell | split; [exact Htext | split; [exact Hloads|]]].
  exact (@sources_counts_bounded flat_runtime example_citations_row
           example_citations example_citations_dict Hcell Htext Hloads).
Defined.

(** ** Prefixes, lengths and words *)

Section text_facts.

Lemma str_length_app (s t : string) :
  String.length (s ++ t) = String.length s + String.length t.
Proof.
  induction s as [|a s IH]; [reflexivity|].
  rewrite str_app_cons. cbn [String.length]. now rewrite IH.
Qed.

Lemma str_length_take (n : nat) (s : string) :
  String.length (Str.take n s) = Nat.min n (String.length s).
Proof.
  revert s. induction n as [|n IH]; intros [|a s]; cbn; try reflexivity.
  now rewrite IH.
Qed.

Lemma str_take_all (n : nat) (s : string) :
  String.length s <= n -> Str.take n s = s.
Proof.
  revert s. induction n as [|n IH]; intros [|a s]; cbn; intros Hn;
    try reflexivity; try lia.
  rewrite IH; [reflexivity | lia].
Qed.

Lemma prefix_refl (s : string) : String.prefix s s = true.
Proof.
  induction s as [|a s IH]; [reflexivity|]. cbn.
  destruct (ascii_dec a a); [exact IH | congruence].
Qed.

Lemma prefix_take (n : nat) (s : string) : String.prefix (Str.take n s) s = true.
Proof.
  revert s. induction n as [|n IH]; intros [|a s]; cbn; try reflexivity.
  destruct (ascii_dec a a); [apply IH | congruence].
Qed.

Lemma prefix_app (s t : string) : String.prefix s (s ++ t) = true.
Proof.
  induction s as [|a s IH]; [now destruct t|].
  rewrite str_app_cons. cbn.
  destruct (ascii_dec a a); [exact IH | congruence].
Qed.

Lemma str_app_empty_r (s : string) : s ++ "" = s.
Proof.
  induction s as [|a s IH]; [reflexivity|]. now rewrite str_app_cons, IH.
Qed.

Lemma split_aux_no_space (w t : string) :
  Obs.no_space w = true ->
  Str.split_aux (w ++ t)
  = (w ++ (Str.split_aux t).1, (Str.split_aux t).2).
Proof.
  induction w as [|c w IH]; intros Hw.
  - rewrite !str_app_nil. now destruct (Str.split_aux t).
  - cbn in Hw. apply andb_true_iff in Hw as [Hc Hw].
    rewrite !str_app_cons. cbn [Str.split_aux]. rewrite (IH Hw).
    apply negb_true_iff in Hc. now rewrite Hc.
Qed.

Lemma split_word_then_space (w t : string) :
  Obs.is_word w = true ->
  Str.split (w ++ String " " t) = w :: Str.split t.
Proof.
  intros Hw. apply andb_true_iff in Hw as [Hne Hw].
  unfold Str.split. rewrite (split_aux_no_space w _ Hw).
  cbn [Str.split_aux]. change (Str.isspace " ") with true.
  destruct (Str.split_aux t) as [w' ws]. cbn. rewrite str_app_empty_r.
  destruct w; [discriminate|]. reflexivity.
Qed.

Lemma split_word (w : string) :
  Obs.is_word w = true -> Str.split w = [w].
Proof.
  intros Hw. apply andb_true_iff in Hw as [Hne Hw].
  unfold Str.split. rewrite <- (str_app_empty_r w) at 1.
  rewrite (split_aux_no_space w "" Hw). cbn. rewrite str_app_empty_r.
  now destruct w.
Qed.

(** Splitting what [join] made of words gives the words back. *)
Lemma split_join (ws : list string) :
  forallb Obs.is_word ws = true -> Str.split (Str.join " " ws) = ws.
Proof.
  induction ws as [|w ws IH]; [reflexivity|].
  cbn [forallb]. intros Hws. apply andb_true_iff in Hws as [Hw Hws].
  destruct ws as [|w' ws]; [now apply split_word|].
  change (Str.join " " (w :: w' :: ws))
    with (w ++ String " " (Str.join " " (w' :: ws))).
  now rewrite (split_word_then_space w _ Hw), (IH Hws).
Qed.

Lemma split_aux_words (s : string) :
  Obs.no_space (Str.split_aux s).1 = true
  /\ forallb Obs.is_word (Str.split_aux s).2 = true.
Proof.
  induction s as [|c s [Hw Hws]]; [now split|].
  cbn [Str.split_aux]. destruct (Str.split_aux s) as [w ws]. cbn in *.
  destruct (Str.isspace c) eqn:Hc; cbn.
  - split; [reflexivity|]. destruct w; cbn; [exact Hws|].
    cbn in Hw. now rewrite Hw, Hws.
  - now rewrite Hc, Hw.
Qed.

(** [split] yields words. *)
Lemma split_words (s : string) : forallb Obs.is_word (Str.split s) = true.
Proof.
  unfold Str.split. destruct (split_aux_words s) as [Hw Hws].
  destruct (Str.split_aux s) as [w ws]. cbn in *.
  destruct w; cbn; [exact Hws|]. cbn in Hw. now rewrite Hw, Hws.
Qed.

Lemma forallb_take {A : Type} (p : A -> bool) (n : nat) (l : list A) :
  forallb p l = true -> forallb p (take n l) = true.
Proof.
  revert l. induction n as [|n IH]; intros [|x l]; cbn; try reflexivity.
  intros Hl. apply andb_true_iff in Hl as [Hx Hl]. now rewrite Hx, IH.
Qed.

End text_facts.

(** ** The confidence summary card *)

(** X7. The confidence summary never raises on a text cell. It reads "Not
    available" when the column is missing or the cell is [None], empty or
    N/A. Otherwise, when the text contains HIGH and has more than three
    words, it is exactly the first three words, separated by one space; in
    every other case it is a prefix of the text of at most 30
    characters. *)
Theorem conf_summary_shape (r : row) (v : pyval) (s : string) :
  (r !! "FIELD_CITATIONS" = None ->
   page_extracted_traits.conf_summary r = Some "Not available")
  /\ (r !! "FIELD_CITATIONS" = Some v -> py_truthy v = false ->
      page_extracted_traits.conf_summary r = Some "Not available")
  /\ (r !! "FIELD_CITATIONS" = Some (PyStr s) ->
      page_extracted_traits.conf_summary r
      = Some (page_extracted_traits.conf_summary_text s))
  /\ page_extracted_traits.conf_summary_text "N/A" = "Not available"
  /\ (Str.truthy s = true -> s <> "N/A" ->
      if Str.contains "HIGH" s && (3 <? length (Str.split s))%nat
      then page_extracted_traits.conf_summary_text s
           = Str.join " " (take 3 (Str.split s))
           /\ Str.split (page_extracted_traits.conf_summary_text s)
              = take 3 (Str.split s)
      else String.prefix (page_extracted_traits.conf_summary_text s) s = true
           /\ String.length (page_extracted_traits.conf_summary_text s) <= 30).
Proof.
  unfold page_extracted_traits.conf_summary.
  split; [now intros ->|]. split.
  { intros -> Hv. destruct v as [|b|z|q|t|l|m]; try now rewrite Hv.
    now destruct t. }
  split; [now intros ->|]. split; [reflexivity|].
  intros Hs Hna. unfold page_extracted_traits.conf_summary_text. rewrite Hs.
  apply String.eqb_neq in Hna. rewrite Hna. cbn [negb andb]. cbv zeta.
  destruct (Str.contains "HIGH" s); cbn [andb].
  - destruct (3 <? length (Str.split s))%nat.
    + split; [reflexivity|].
      apply split_join, forallb_take, split_words.
    + split; [apply prefix_take|]. rewrite str_length_take. lia.
  - split; [apply prefix_take|]. rewrite str_length_take. lia.
Qed.

Lemma conf_summary_shape_witness :
  (row_without_gene !! "FIELD_CITATIONS" = None
   /\ page_extracted_traits.conf_summary row_without_gene = Some "Not available")
  /\ (no_citations_row !! "FIELD_CITATIONS" = Some PyNone
      /\ py_truthy PyNone = false
      /\ page_extracted_traits.conf_summary no_citations_row = Some "Not available")
  /\ (confidence_row "HIGH confidence in all fields"
        !! "FIELD_CITATIONS" = Some (PyStr "HIGH confidence in all fields")
      /\ page_extracted_traits.conf_summary
           (confidence_row "HIGH confidence in all fields")
         = Some (page_extracted_traits.conf_summary_text
                   "HIGH confidence in all fields"))
  /\ (Str.truthy "HIGH confidence in all fields" = true
      /\ "HIGH confidence in all fields" <> "N/A"
      /\ Str.split (page_extracted_traits.conf_summary_text
                      "HIGH confidence in all fields")
         = ["HIGH"; "confidence"; "in"]).
Proof.
  assert (Hmiss : row_without_gene !! "FIELD_CITATIONS" = None)
    by (vm_compute; reflexivity).
  assert (Hnone : no_citations_row !! "FIELD_CITATIONS" = Some PyNone)
    by (vm_compute; reflexivity).
  assert (Hcell : confidence_row "HIGH confidence in all fields"
                    !! "FIELD_CITATIONS"
                  = Some (PyStr "HIGH confidence in all fields"))
    by (vm_compute; reflexivity).
  assert (Hna : "HIGH confidence in all fields" <> "N/A") by discriminate.
  split; [|split; [|split]].
  - split; [exact Hmiss|].
    exact (proj1 (conf_summary_shape row_without_gene PyNone "") Hmiss).
  - split; [exact Hnone | split; [reflexivity|]].
    exact (proj1 (proj2 (conf_summary_shape no_citations_row PyNone ""))
             Hnone eq_refl).
  - split; [exact Hcell|].
    exact (proj1 (proj2 (proj2
      (conf_summary_shape (confidence_row "HIGH confidence in all fields")
         PyNone "HIGH confidence in all fields"))) Hcell).
  - split; [reflexivity | split; [exact Hna|]].
    exact (proj2 (proj2 (proj2 (proj2 (proj2
      (conf_summary_shape ∅ PyNone "HIGH confidence in all fields"))))
      eq_refl Hna)).
Defined.

(** ** The page browser *)

Section page_browser_facts.
Import page_browser.

(** X8. The text area shows the page text itself when it has at most 2000
    characters; a longer text is cut to its first 2000 characters followed
    by three dots, 2003 characters in all. In both cases what is shown
    starts with the first 2000 characters of the text. *)
Theorem text_value_bounds (text : string) :
  String.length (text_value text) <= 2003
  /\ String.prefix (Str.take 2000 text) (text_value text) = true
  /\ (String.length text <= 2000 -> text_value text = text)
  /\ (2000 < String.length text ->
      text_value text = Str.take 2000 text ++ "..."
      /\ String.length (text_value text) = 2003).
Proof.
  unfold text_value.
  destruct (2000 <? String.length text)%nat eqn:Hlen.
  - apply Nat.ltb_lt in Hlen.
    assert (Hcut : String.length (Str.take 2000 text ++ "...") = 2003).
    { rewrite str_length_app, str_length_take.
      change (String.length "...") with 3. lia. }
    split; [lia|]. split; [apply prefix_app|]. split; [lia|]. now split.
  - apply Nat.ltb_ge in Hlen.
    split; [lia|]. split; [apply prefix_take|]. split; [reflexivity | lia].
Qed.

End page_browser_facts.

Lemma text_value_bounds_witness :
  (String.length "Abstract" <= 2000
   /\ page_browser.text_value "Abstract" = "Abstract")
  /\ (2000 < String.length (Str.repeat "a" 2001)
      /\ String.length (page_browser.text_value (Str.repeat "a" 2001)) = 2003).
Proof.
  assert (Hshort : String.length "Abstract" <= 2000) by (cbn; lia).
  assert (Hlong : 2000 < String.length (Str.repeat "a" 2001))
    by (apply Nat.ltb_lt; vm_compute; reflexivity).
  split.
  - split; [exact Hshort|].
    exact (proj1 (proj2 (proj2 (text_value_bounds "Abstract"))) Hshort).
  - split; [exact Hlong|].
    exact (proj2 (proj2 (proj2 (proj2
      (text_value_bounds (Str.repeat "a" 2001)))) Hlong)).
Defined.

Section page_lookup_facts.
Import page_browser.

Lemma elem_of_unique (x : Z) (l : list Z) : x ∈ unique l <-> x ∈ l.
Proof.
  induction l as [|y l IH]; [reflexivity|]. cbn [unique].
  rewrite !elem_of_cons, list_elem_of_filter, IH.
  destruct (decide (x = y)) as [->|Hne]; [tauto|]. tauto.
Qed.

Lemma NoDup_unique (l : list Z) : NoDup (unique l).
Proof.
  induction l as [|y l IH]; [constructor|]. cbn [unique].
  apply NoDup_cons. split.
  - rewrite list_elem_of_filter. tauto.
  - now apply NoDup_filter.
Qed.

Lemma elem_of_py_sorted (x : Z) (l : list Z) : x ∈ py_sorted l <-> x ∈ l.
Proof. unfold py_sorted. now rewrite merge_sort_Permutation. Qed.

Lemma elem_of_page_numbers (pages_df : list page_row) (n : Z) :
  n ∈ page_numbers pages_df
  <-> exists row, row ∈ pages_df /\ PAGE_NUMBER row = n.
Proof.
  unfold page_numbers.
  rewrite elem_of_py_sorted, elem_of_unique, list_elem_of_fmap.
  split; intros (row & H1 & H2); exists row; split; congruence || assumption.
Qed.

(** X9. The page selector offers the page numbers of the frame in
    increasing order, each once, and none when and only when the frame is
    empty. For a page number taken from the selector the row lookup never
    fails: it finds a row of the frame with that page number. *)
Theorem page_lookup_never_fails (pages_df : list page_row) (selected_page : Z) :
  Sorted Z.le (page_numbers pages_df)
  /\ NoDup (page_numbers pages_df)
  /\ (forall n,
        n ∈ page_numbers pages_df
        <-> exists row, row ∈ pages_df /\ PAGE_NUMBER row = n)
  /\ (pages_df <> [] -> page_numbers pages_df <> [])
  /\ (selected_page ∈ page_numbers pages_df ->
      exists row,
        page_data pages_df selected_page = Some row
        /\ row ∈ pages_df /\ PAGE_NUMBER row = selected_page).
Proof.
  split; [apply Sorted_merge_sort; apply _|]. split.
  { unfold page_numbers, py_sorted. rewrite merge_sort_Permutation.
    apply NoDup_unique. }
  split; [apply elem_of_page_numbers|]. split.
  - intros Hne Hnil. destruct pages_df as [|row rest]; [congruence|].
    assert (Hin : PAGE_NUMBER row ∈ page_numbers (row :: rest)).
    { apply elem_of_page_numbers. exists row. split; [left | reflexivity]. }
    rewrite Hnil in Hin. inversion Hin.
  - intros Hsel. apply elem_of_page_numbers in Hsel as (row & Hrow & Hnum).
    unfold page_data, iloc0.
    destruct (filter (fun row => PAGE_NUMBER row = selected_page) pages_df)
      as [|first rest] eqn:Hf.
    + assert (Hin : row ∈ filter (fun row => PAGE_NUMBER row = selected_page)
                            pages_df)
        by (apply list_elem_of_filter; now split).
      rewrite Hf in Hin. inversion Hin.
    + exists first. split; [reflexivity|].
      assert (Hin : first ∈ filter (fun row => PAGE_NUMBER row = selected_page)
                              pages_df) by (rewrite Hf; left).
      apply list_elem_of_filter in Hin as [Hnum' Hin]. now split.
Qed.

(** X10. The text area is shown only for a page with a non-empty text,
    whose length the "Text Length" metric then reports; the image path asked
    for never starts with an at sign; and a page for which both the text
    and an image path are shown has the status "Complete". *)
Theorem page_panels (page : page_row) (shown path : string) :
  (text_panel page = Some shown ->
   exists text,
     PAGE_TEXT page = Some text /\ text <> ""
     /\ shown = text_value text /\ text_len page = String.length text)
  /\ (image_path page = Some path ->
      String.prefix "@" path = false
      /\ exists raw i, IMAGE_PATH page = Some raw
                       /\ raw = Str.repeat "@" i ++ path)
  /\ (text_panel page = Some shown -> image_path page = Some path ->
      complete page = true).
Proof.
  unfold text_panel, image_path, complete, text_len.
  split; [|split].
  - destruct (PAGE_TEXT page) as [text|]; [|discriminate].
    destruct (flag_truthy (HAS_TEXT page) && Str.truthy text) eqn:Hshow;
      [|discriminate].
    intros Hshown. injection Hshown as <-.
    apply andb_true_iff in Hshow as [_ Ht]. rewrite Ht.
    exists text. split; [reflexivity|].
    split; [now destruct text | now split].
  - destruct (IMAGE_PATH page) as [raw|]; [|discriminate].
    destruct (flag_truthy (HAS_IMAGE page) && Str.truthy raw); [|discriminate].
    intros Hpath. injection Hpath as <-.
    destruct (lstrip_decompose "@" raw) as (i & Hraw & Hhead).
    split; [exact Hhead | now exists raw, i].
  - destruct (PAGE_TEXT page) as [text|]; [|discriminate].
    destruct (IMAGE_PATH page) as [raw|]; [|discriminate].
    destruct (flag_truthy (HAS_TEXT page)); [|discriminate].
    destruct (flag_truthy (HAS_IMAGE page)); [reflexivity | discriminate].
Qed.

End page_lookup_facts.

Lemma page_lookup_never_fails_witness :
  example_pages <> []
  /\ page_browser.page_numbers example_pages <> []
  /\ 3%Z ∈ page_browser.page_numbers example_pages
  /\ exists row,
       page_browser.page_data example_pages 3 = Some row
       /\ row ∈ example_pages /\ page_browser.PAGE_NUMBER row = 3%Z.
Proof.
  assert (Hne : example_pages <> []) by discriminate.
  assert (Hsel : 3%Z ∈ page_browser.page_numbers example_pages)
    by (apply (bool_decide_unpack _); vm_compute; exact I).
  split; [exact Hne|]. split.
  - exact (proj1 (proj2 (proj2 (proj2
      (page_lookup_never_fails example_pages 3)))) Hne).
  - split; [exact Hsel|].
    exact (proj2 (proj2 (proj2 (proj2
      (page_lookup_never_fails example_pages 3)))) Hsel).
Defined.

Lemma page_panels_witness :
  exists page,
    page_browser.page_data example_pages 3 = Some page
    /\ page_browser.text_panel page = Some "Results"
    /\ page_browser.image_path page = Some "pages/p3.png"
    /\ page_browser.complete page = true
    /\ String.prefix "@" "pages/p3.png" = false.
Proof.
  eexists. split; [vm_compute; reflexivity|].
  match goal with
  | |- page_browser.text_panel ?p = _ /\ _ =>
      assert (Hshown : page_browser.text_panel p = Some "Results")
        by (vm_compute; reflexivity);
      assert (Hpath : page_browser.image_path p = Some "pages/p3.png")
        by (vm_compute; reflexivity);
      split; [exact Hshown | split; [exact Hpath | split]];
      [ exact (proj2 (proj2 (page_panels p "Results" "pages/p3.png"))
                 Hshown Hpath)
      | exact (proj1 (proj1 (proj2 (page_panels p "Results" "pages/p3.png"))
                        Hpath)) ]
  end.
Defined.

(** ** The chatbot: escapes *)

Section escape_facts.
Import page_chatbot.

Lemma sql_escape_cons (a : ascii) (s : string) :
  sql_escape (String a s)
  = if Ascii.eqb a Str.squote
    then String Str.squote (String Str.squote (sql_escape s))
    else String a (sql_escape s).
Proof.
  unfold sql_escape. cbn [Str.replace_char].
  destruct (Ascii.eqb a Str.squote); reflexivity.
Qed.

(** X11. The SQL escape doubles every single quote and changes nothing
    else: read back as the inside of a SQL string literal, with two quotes
    standing for one, the escaped text is the original text, and no quote
    in it stands alone, so the literal does not end inside it. *)
Theorem sql_escape_round_trip (text : string) :
  Obs.sql_unescape (sql_escape text) = text
  /\ Obs.sql_closes (sql_escape text) = false
  /\ String.length text <= String.length (sql_escape text).
Proof.
  induction text as [|a text (IHu & IHc & IHl)]; [now repeat split|].
  rewrite sql_escape_cons. destruct (Ascii.eqb a Str.squote) eqn:Ha.
  - apply Ascii.eqb_eq in Ha as ->. cbn. rewrite IHu, IHc. repeat split. lia.
  - cbn. rewrite Ha, IHu, IHc. repeat split. lia.
Qed.

Lemma str_app_assoc (s t u : string) : s ++ (t ++ u) = (s ++ t) ++ u.
Proof.
  induction s as [|a s IH]; [reflexivity|]. now rewrite !str_app_cons, IH.
Qed.

Lemma replace_char_app (c : ascii) (new s t : string) :
  Str.replace_char c new (s ++ t)
  = Str.replace_char c new s ++ Str.replace_char c new t.
Proof.
  induction s as [|a s IH]; [reflexivity|].
  rewrite str_app_cons. cbn [Str.replace_char].
  destruct (Ascii.eqb a c).
  - now rewrite IH, str_app_assoc.
  - now rewrite IH, str_app_cons.
Qed.



End escape_facts.

(** ** The chatbot: cited pages, the answer, the history *)

Section chatbot_facts.
Import page_chatbot.

Lemma page_num_of_page_no (r : search_row) (n : Z) :
  page_num_of r = PageNo n <-> (n <> 0%Z /\ PAGE_NUMBER r = Some n).
Proof.
  unfold page_num_of. destruct (PAGE_NUMBER r) as [k|].
  - destruct (k =? 0)%Z eqn:Hk.
    + apply Z.eqb_eq in Hk. split; [discriminate|].
      intros [Hn Heq]. injection Heq as ->. contradiction.
    + apply Z.eqb_neq in Hk. split.
      * intros Heq. injection Heq as <-. now split.
      * intros [_ Heq]. injection Heq as ->. reflexivity.
  - split; [discriminate | intros [_ Heq]; discriminate].
Qed.

Lemma context_refs_step (context_str : string) (page_refs : list page_num_value)
    (r : search_row) :
  (context_step (context_str, page_refs) r).2
  = if decide (page_num_of r ∈ page_refs \/ page_num_of r = Unknown)
    then page_refs else (page_refs ++ [page_num_of r])%list.
Proof.
  cbn. destruct (decide (page_num_of r ∈ page_refs)) as [Hin|Hin].
  - rewrite (bool_decide_eq_true_2 _ Hin). cbn.
    now rewrite decide_True by tauto.
  - rewrite (bool_decide_eq_false_2 _ Hin). cbn.
    destruct (decide (page_num_of r = Unknown)) as [Hu|Hu].
    + rewrite (bool_decide_eq_true_2 _ Hu). cbn.
      now rewrite decide_True by tauto.
    + rewrite (bool_decide_eq_false_2 _ Hu). cbn.
      now rewrite decide_False by tauto.
Qed.

(** The loop, started from any context and any duplicate-free list. *)
Lemma context_refs_spec (search_results : list search_row)
    (context_str : string) (page_refs : list page_num_value) :
  NoDup page_refs ->
  NoDup (foldl context_step (context_str, page_refs) search_results).2
  /\ (forall p,
        p ∈ (foldl context_step (context_str, page_refs) search_results).2
        <-> p ∈ page_refs
            \/ (p <> Unknown /\ exists r, r ∈ search_results /\ page_num_of r = p))
  /\ length (foldl context_step (context_str, page_refs) search_results).2
     <= length page_refs + length search_results.
Proof.
  revert context_str page_refs.
  induction search_results as [|r rest IH]; intros context_str page_refs Hnd.
  - cbn. split; [exact Hnd|]. split; [|lia].
    intros p. split; [now left|]. intros [Hp|(_ & r & Hr & _)]; [exact Hp|].
    inversion Hr.
  - cbn [foldl].
    destruct (context_step (context_str, page_refs) r) as [ctx' refs'] eqn:Hstep.
    assert (Hrefs : refs' = (context_step (context_str, page_refs) r).2)
      by now rewrite Hstep.
    rewrite context_refs_step in Hrefs.
    destruct (decide (page_num_of r ∈ page_refs \/ page_num_of r = Unknown))
      as [Hold|Hnew]; subst refs'.
    + destruct (IH ctx' page_refs Hnd) as (IHnd & IHin & IHlen).
      split; [exact IHnd|]. split; [|cbn; lia].
      intros p. rewrite IHin. split.
      * intros [Hp|(Hu & r' & Hr' & Hp)]; [now left|].
        right. split; [exact Hu|]. exists r'. split; [now right | exact Hp].
      * intros [Hp|(Hu & r' & Hr' & Hp)]; [now left|].
        apply elem_of_cons in Hr' as [-> | Hr'].
        -- left. destruct Hold as [Hold|Hold]; congruence.
        -- right. split; [exact Hu|]. now exists r'.
    + assert (Hnd' : NoDup (page_refs ++ [page_num_of r])).
      { apply NoDup_app. split; [exact Hnd|]. split; [|apply NoDup_singleton].
        intros x Hx Hx1. apply list_elem_of_singleton in Hx1 as ->. tauto. }
      destruct (IH ctx' _ Hnd') as (IHnd & IHin & IHlen).
      split; [exact IHnd|]. split.
      * intros p. rewrite IHin, elem_of_app, list_elem_of_singleton. split.
        -- intros [[Hp | ->] | (Hu & r' & Hr' & Hp)].
           ++ now left.
           ++ right. split; [tauto|]. exists r. split; [left | reflexivity].
           ++ right. split; [exact Hu|]. exists r'. split; [now right | exact Hp].
        -- intros [Hp|(Hu & r' & Hr' & Hp)]; [now left; left|].
           apply elem_of_cons in Hr' as [-> | Hr'].
           ++ left. right. now symmetry.
           ++ right. split; [exact Hu|]. now exists r'.
      * rewrite length_app in IHlen. cbn in *. lia.
Qed.

(** X13. The loop over the search results cites each page once: the list
    of page references has no duplicate, holds exactly the page numbers of
    the results that are neither null nor zero (a null or zero page number
    is written [Unknown] in the context and is not cited), and is no longer
    than the list of results. *)
Theorem page_refs_cited_once (search_results : list search_row) :
  NoDup (build_context search_results).2
  /\ (forall p,
        p ∈ (build_context search_results).2
        <-> exists n, p = PageNo n /\ Obs.cited n search_results)
  /\ length (build_context search_results).2 <= length search_results.
Proof.
  destruct (context_refs_spec search_results "" [] (NoDup_nil_2))
    as (Hnd & Hin & Hlen).
  fold (build_context search_results) in Hnd, Hin, Hlen.
  split; [exact Hnd|]. split; [|exact Hlen].
  intros p. rewrite Hin. unfold Obs.cited. split.
  - intros [Hp|(Hu & r & Hr & Hp)]; [inversion Hp|].
    destruct p as [n|]; [|congruence]. exists n. split; [reflexivity|].
    apply page_num_of_page_no in Hp as [Hn Hnum]. split; [exact Hn|].
    now exists r.
  - intros (n & -> & Hn & r & Hr & Hnum). right. split; [discriminate|].
    exists r. split; [exact Hr|]. now apply page_num_of_page_no.
Qed.

Lemma refs_all_page_no (search_results : list search_row) :
  forallb is_page_no (build_context search_results).2 = true.
Proof.
  apply forallb_forall. intros p Hp. apply list_elem_of_In in Hp.
  apply (proj1 (proj2 (page_refs_cited_once search_results))) in Hp.
  now destruct Hp as (n & -> & _).
Qed.

End chatbot_facts.

Section chatbot_answer_facts.
Import page_chatbot.

Lemma sorted_refs_of_context (search_results : list search_row) :
  sorted_refs (build_context search_results).2
  = Ok (PageNo <$> py_sorted (page_no <$> (build_context search_results).2)).
Proof. unfold sorted_refs. now rewrite refs_all_page_no. Qed.

Lemma cited_pages_sorted (search_results : list search_row) :
  Sorted Z.le (py_sorted (page_no <$> (build_context search_results).2))
  /\ NoDup (py_sorted (page_no <$> (build_context search_results).2))
  /\ (forall n,
        n ∈ py_sorted (page_no <$> (build_context search_results).2)
        <-> Obs.cited n search_results).
Proof.
  destruct (page_refs_cited_once search_results) as (Hnd & Hin & _).
  split; [apply Sorted_merge_sort; apply _|]. split.
  - unfold py_sorted. rewrite merge_sort_Permutation.
    apply NoDup_fmap_2_strong; [|exact Hnd].
    intros p1 p2 Hp1 Hp2 Heq.
    apply Hin in Hp1 as (n1 & -> & _). apply Hin in Hp2 as (n2 & -> & _).
    cbn in Heq. now subst.
  - intros n. rewrite elem_of_py_sorted, list_elem_of_fmap. split.
    + intros (p & -> & Hp). apply Hin in Hp as (k & -> & Hk). exact Hk.
    + intros Hn. exists (PageNo n). split; [reflexivity|].
      apply Hin. now exists n.
Qed.

(** X14. When the search and the completion both answer, the [try] block
    does not raise: sorting the cited pages never meets [Unknown]. The
    answer is the response alone when no result has a page number that is
    neither null nor zero; otherwise it is the response followed by the
    "Sources" line, which names each cited page once, in increasing order.
    A failure of the search or of the completion is raised as it is. *)
Theorem answer_cites_sorted_pages (search_results : list search_row)
    (llm_result : list string) (complete : result (list string)) (e : exn) :
  answer (Raise e) complete = Raise e
  /\ answer (Ok search_results) (Raise e) = Raise e
  /\ exists pages,
       Sorted Z.le pages /\ NoDup pages
       /\ (forall n, n ∈ pages <-> Obs.cited n search_results)
       /\ answer (Ok search_results) (Ok llm_result)
          = Ok (match pages with
                | [] => response_of llm_result
                | _ :: _ =>
                    response_of llm_result ++ String newline (String newline "")
                    ++ "**📄 Sources:** "
                    ++ Str.join ", "
                         ((fun n => "Page " ++ NilZero.string_of_int (Z.to_int n))
                            <$> pages)
                end).
Proof.
  split; [reflexivity|]. unfold answer. cbn [mbind result_bind].
  pose proof (sorted_refs_of_context search_results) as Hsorted.
  pose proof (cited_pages_sorted search_results) as Hpages.
  destruct (build_context search_results) as [context_str page_refs].
  cbn [snd] in Hsorted, Hpages. split; [reflexivity|].
  exists (py_sorted (page_no <$> page_refs)).
  destruct Hpages as (Hs & Hnd & Hin). repeat (split; [assumption|]).
  destruct page_refs as [|p page_refs]; [reflexivity|].
  unfold response_with_refs. rewrite Hsorted. cbn [mbind result_bind mret result_ret].
  destruct (py_sorted (page_no <$> p :: page_refs)) as [|n pages] eqn:Hp.
  - exfalso. assert (Hperm : py_sorted (page_no <$> p :: page_refs)
                             ≡ₚ page_no <$> p :: page_refs)
      by apply merge_sort_Permutation.
    rewrite Hp in Hperm. symmetry in Hperm.
    apply Permutation_nil_r in Hperm. discriminate.
  - do 4 f_equal. rewrite <- list_fmap_compose. reflexivity.
Qed.



End chatbot_answer_facts.


(** ** Ordered dicts, the document selector and the navigation *)

Section ordered_dict_facts.
Context {V : Type}.
Implicit Types (d : list (string * V)) (k : string) (v : V).

Lemma od_set_keys k v d k' :
  k' ∈ (od_set k v d).*1 <-> k' = k \/ k' ∈ d.*1.
Proof.
  induction d as [|[k0 v0] d IH]; cbn.
  - rewrite list_elem_of_singleton. split; [now left | now intros [|H]; [|inversion H]].
  - destruct (String.eqb k0 k) eqn:Hk; cbn.
    + apply String.eqb_eq in Hk as ->. rewrite !elem_of_cons. tauto.
    + rewrite !elem_of_cons, IH. tauto.
Qed.

Lemma od_set_NoDup k v d : NoDup d.*1 -> NoDup (od_set k v d).*1.
Proof.
  induction d as [|[k0 v0] d IH]; cbn; intros Hnd.
  - apply NoDup_singleton.
  - apply NoDup_cons in Hnd as [Hk0 Hnd].
    destruct (String.eqb k0 k) eqn:Hk; cbn.
    + apply NoDup_cons. now split.
    + apply NoDup_cons. split; [|now apply IH].
      rewrite od_set_keys. intros [->|Hin]; [|contradiction].
      now rewrite String.eqb_refl in Hk.
Qed.

Lemma od_set_items k v d k' v' :
  (k', v') ∈ od_set k v d -> (k' = k /\ v' = v) \/ (k', v') ∈ d.
Proof.
  induction d as [|[k0 v0] d IH]; cbn.
  - intros Hin. apply list_elem_of_singleton in Hin. injection Hin as -> ->. now left.
  - destruct (String.eqb k0 k) eqn:Hk.
    + apply String.eqb_eq in Hk as ->. rewrite !elem_of_cons.
      intros [Heq|Hin]; [injection Heq as -> ->; now left | right; now right].
    + rewrite !elem_of_cons. intros [Heq|Hin]; [right; now left|].
      destruct (IH Hin) as [H|H]; [now left | right; now right].
Qed.

Lemma od_get_key d k : k ∈ d.*1 -> exists v, od_get d k = Ok v /\ (k, v) ∈ d.
Proof.
  induction d as [|[k0 v0] d IH]; cbn; intros Hin; [inversion Hin|].
  destruct (String.eqb k0 k) eqn:Hk.
  - apply String.eqb_eq in Hk as ->. exists v0. split; [reflexivity | left].
  - apply elem_of_cons in Hin as [->|Hin];
      [now rewrite String.eqb_refl in Hk|].
    destruct (IH Hin) as (v & Hget & Hitem). exists v. split; [exact Hget | now right].
Qed.

Lemma od_get_item d k v : NoDup d.*1 -> (k, v) ∈ d -> od_get d k = Ok v.
Proof.
  induction d as [|[k0 v0] d IH]; cbn; intros Hnd Hin; [inversion Hin|].
  apply NoDup_cons in Hnd as [Hk0 Hnd].
  apply elem_of_cons in Hin as [Heq|Hin].
  - injection Heq as -> ->. now rewrite String.eqb_refl.
  - destruct (String.eqb k0 k) eqn:Hk; [|now apply IH].
    apply String.eqb_eq in Hk as ->. exfalso. apply Hk0.
    apply list_elem_of_fmap. now exists (k, v).
Qed.

Lemma od_get_missing d k : k ∉ d.*1 -> od_get d k = Raise (KeyError k).
Proof.
  induction d as [|[k0 v0] d IH]; cbn; intros Hin; [reflexivity|].
  rewrite not_elem_of_cons in Hin. destruct Hin as [Hne Hin].
  destruct (String.eqb k0 k) eqn:Hk; [|now apply IH].
  apply String.eqb_eq in Hk. congruence.
Qed.

End ordered_dict_facts.

Lemma list_index_elem (x : string) (l : list string) :
  x ∈ l -> exists i, list_index x l = Ok i /\ l !! i = Some x.
Proof.
  induction l as [|y l IH]; intros Hin; [inversion Hin|]. cbn.
  destruct (String.eqb y x) eqn:Hy.
  - apply String.eqb_eq in Hy as ->. now exists 0.
  - apply elem_of_cons in Hin as [->|Hin];
      [now rewrite String.eqb_refl in Hy|].
    destruct (IH Hin) as (i & -> & Hi). now exists (S i).
Qed.

Lemma list_index_not_elem (x : string) (l : list string) :
  x ∉ l -> list_index x l = Raise ValueError.
Proof.
  induction l as [|y l IH]; intros Hin; [reflexivity|]. cbn.
  rewrite not_elem_of_cons in Hin. destruct Hin as [Hne Hin].
  destruct (String.eqb y x) eqn:Hy.
  - apply String.eqb_eq in Hy. congruence.
  - now rewrite (IH Hin).
Qed.

Section selector_facts.
Import render_document_selector.

Lemma doc_options_fold (documents : list document) (d0 : list (string * string)) :
  NoDup d0.*1 ->
  NoDup (foldl (fun d row => od_set (doc_label row) (DOCUMENT_ID row) d) d0
           documents).*1
  /\ (forall k,
        k ∈ (foldl (fun d row => od_set (doc_label row) (DOCUMENT_ID row) d) d0
               documents).*1
        <-> k ∈ d0.*1 \/ exists doc, doc ∈ documents /\ doc_label doc = k)
  /\ (forall k v,
        (k, v) ∈ foldl (fun d row => od_set (doc_label row) (DOCUMENT_ID row) d) d0
                   documents ->
        (k, v) ∈ d0
        \/ exists doc, doc ∈ documents /\ doc_label doc = k /\ DOCUMENT_ID doc = v).
Proof.
  revert d0. induction documents as [|row rest IH]; intros d0 Hnd; cbn [foldl].
  - split; [exact Hnd|]. split.
    + intros k. split; [now left|]. intros [Hk|(doc & Hdoc & _)]; [exact Hk|].
      inversion Hdoc.
    + intros k v Hin. now left.
  - destruct (IH (od_set (doc_label row) (DOCUMENT_ID row) d0)
                (od_set_NoDup _ _ _ Hnd)) as (IHnd & IHkeys & IHitems).
    split; [exact IHnd|]. split.
    + intros k. rewrite IHkeys, od_set_keys. split.
      * intros [[-> | Hk] | (doc & Hdoc & Hl)].
        -- right. exists row. split; [left | reflexivity].
        -- now left.
        -- right. exists doc. split; [now right | exact Hl].
      * intros [Hk | (doc & Hdoc & Hl)]; [left; now right|].
        apply elem_of_cons in Hdoc as [-> | Hdoc].
        -- left. left. now symmetry.
        -- right. now exists doc.
    + intros k v Hin. destruct (IHitems k v Hin) as [Hset | (doc & Hdoc & Hl & Hid)].
      * apply od_set_items in Hset as [[-> ->] | Hold]; [|now left].
        right. exists row. split; [left | now split].
      * right. exists doc. split; [now right | now split].
Qed.

Lemma doc_info_of_id (documents : list document) (doc : document) :
  doc ∈ documents ->
  exists first,
    doc_info documents (DOCUMENT_ID doc) = Some first
    /\ first ∈ documents /\ DOCUMENT_ID first = DOCUMENT_ID doc.
Proof.
  intros Hdoc. unfold doc_info, iloc0.
  destruct (filter (fun row => DOCUMENT_ID row = DOCUMENT_ID doc) documents)
    as [|first rest] eqn:Hf.
  - assert (Hin : doc ∈ filter (fun row => DOCUMENT_ID row = DOCUMENT_ID doc)
                          documents) by (apply list_elem_of_filter; now split).
    rewrite Hf in Hin. inversion Hin.
  - exists first. split; [reflexivity|].
    assert (Hin : first ∈ filter (fun row => DOCUMENT_ID row = DOCUMENT_ID doc)
                            documents) by (rewrite Hf; left).
    apply list_elem_of_filter in Hin as [Hid Hin]. now split.
Qed.

(** X16. The options of the document selector are the labels of the
    documents, each once. Whatever option the select box answers, the new
    selected id is the id of a document with that label and the lookup of
    its row succeeds; a label that is no option raises [KeyError]. When the
    session's selected id is the value of some option, the default index
    points at an option that selects that same id again; when it is the
    value of none (an unknown id, or a document whose label a later
    document took over), the default index is 0. With at least one document
    there is at least one option, and a new session selects the first
    document. *)
Theorem document_selection_valid (documents : list document)
    (selected_doc_label selected : string) :
  NoDup (doc_options documents).*1
  /\ (forall label,
        label ∈ (doc_options documents).*1
        <-> exists doc, doc ∈ documents /\ doc_label doc = label)
  /\ (selected_doc_label ∈ (doc_options documents).*1 ->
      exists id doc,
        select documents selected_doc_label = Ok id
        /\ doc_info documents id = Some doc
        /\ doc ∈ documents /\ DOCUMENT_ID doc = id
        /\ exists labelled, labelled ∈ documents
                            /\ doc_label labelled = selected_doc_label
                            /\ DOCUMENT_ID labelled = id)
  /\ (selected_doc_label ∉ (doc_options documents).*1 ->
      select documents selected_doc_label = Raise (KeyError selected_doc_label))
  /\ (selected ∈ (doc_options documents).*2 ->
      exists i label,
        current_index documents selected = Ok i
        /\ (doc_options documents).*1 !! i = Some label
        /\ select documents label = Ok selected)
  /\ (selected ∉ (doc_options documents).*2 ->
      current_index documents selected = Ok 0)
  /\ (documents <> [] ->
      (doc_options documents).*1 <> []
      /\ exists doc, head documents = Some doc
                     /\ initial_selection None documents = Some (DOCUMENT_ID doc)).
Proof.
  destruct (doc_options_fold documents [] (NoDup_nil_2))
    as (Hnd & Hkeys & Hitems).
  fold (doc_options documents) in Hnd, Hkeys, Hitems.
  assert (Hkeys' : forall label,
            label ∈ (doc_options documents).*1
            <-> exists doc, doc ∈ documents /\ doc_label doc = label).
  { intros label. rewrite Hkeys. split; [|now right].
    intros [Hnil | Hdoc]; [inversion Hnil | exact Hdoc]. }
  split; [exact Hnd|]. split; [exact Hkeys'|]. split; [|split; [|split; [|split]]].
  - intros Hlabel. destruct (od_get_key _ _ Hlabel) as (id & Hget & Hitem).
    destruct (Hitems _ _ Hitem) as [Hnil | (labelled & Hdoc & Hl & Hid)];
      [inversion Hnil|].
    destruct (doc_info_of_id documents labelled Hdoc) as (first & Hinfo & Hin & Hfid).
    exists id, first. rewrite Hid in Hinfo, Hfid.
    split; [exact Hget|]. split; [exact Hinfo|]. split; [exact Hin|].
    split; [exact Hfid|]. now exists labelled.
  - intros Hlabel. now apply od_get_missing.
  - intros Hsel. apply list_elem_of_fmap in Hsel as ([label id] & Heq & Hitem).
    cbn in Heq. subst id. unfold current_index, current_doc_labels.
    destruct (filter (fun item => item.2 = selected) (doc_options documents))
      as [|[label0 id0] rest] eqn:Hf.
    + assert (Hin : (label, selected)
                    ∈ filter (fun item => item.2 = selected) (doc_options documents))
        by (apply list_elem_of_filter; now split).
      rewrite Hf in Hin. inversion Hin.
    + assert (Hin : (label0, id0)
                    ∈ filter (fun item => item.2 = selected) (doc_options documents))
        by (rewrite Hf; left).
      apply list_elem_of_filter in Hin as [Hid Hin]. cbn in Hid. subst id0.
      cbn [fmap list_fmap fst].
      assert (Hkey : label0 ∈ (doc_options documents).*1)
        by (apply list_elem_of_fmap; now exists (label0, selected)).
      destruct (list_index_elem _ _ Hkey) as (i & Hi & Hlook).
      exists i, label0. split; [exact Hi|]. split; [exact Hlook|].
      now apply od_get_item.
  - intros Hsel. unfold current_index, current_doc_labels.
    destruct (filter (fun item => item.2 = selected) (doc_options documents))
      as [|[label0 id0] rest] eqn:Hf; [reflexivity|].
    exfalso. apply Hsel.
    assert (Hin : (label0, id0)
                  ∈ filter (fun item => item.2 = selected) (doc_options documents))
      by (rewrite Hf; left).
    apply list_elem_of_filter in Hin as [Hid Hin]. cbn in Hid. subst id0.
    apply list_elem_of_fmap. now exists (label0, selected).
  - intros Hne. destruct documents as [|doc rest]; [congruence|]. split.
    + intros Hnil.
      assert (Hin : doc_label doc ∈ (doc_options (doc :: rest)).*1)
        by (apply Hkeys'; exists doc; split; [left | reflexivity]).
      rewrite Hnil in Hin. inversion Hin.
    + now exists doc.
Qed.

End selector_facts.

Section navigation_facts.
Context {E : Type}.

Lemma run_known (selector : option E) (call : main.page -> option E)
    (session : option string) (selected_page : string) :
  main.initial_page session ∈ main.pages.*1 -> selected_page ∈ main.pages.*1 ->
  exists page_function,
    (selected_page, page_function) ∈ main.pages
    /\ main.run selector call session selected_page
       = (selected_page, Obs.calls_ending selector call page_function).
Proof.
  intros Hcur Hsel. unfold main.run, main.radio_index, Obs.calls_ending.
  destruct (list_index_elem _ _ Hcur) as (i & -> & _).
  destruct (od_get_key _ _ Hsel) as (page_function & Hget & Hitem).
  exists page_function. split; [exact Hitem|].
  rewrite Hget. now destruct selector.
Qed.

(** X17. From a new session, and as long as the radio answers one of the
    five page names, the lookups of [main] never raise: the current page is
    always one of the names, also after a run in which the selector or the
    page raised, so its index is found and the page function is found under
    the answer. A run then ends as its two calls do: with the exception of
    [render_document_selector()], else with that of the page function, else
    by returning. The index given to the radio points at the current page.
    A session whose current page is not one of the names makes [main] raise
    [ValueError] before anything is called and leaves the current page as
    it was. *)
Theorem navigation_never_fails (session : option string)
    (selector : option E) (call : main.page -> option E) (selected_page : string)
    (runs : list (string * option E * (main.page -> option E))) :
  (main.initial_page session ∈ main.pages.*1 -> selected_page ∈ main.pages.*1 ->
   exists page_function,
     (selected_page, page_function) ∈ main.pages
     /\ main.run selector call session selected_page
        = (selected_page, Obs.calls_ending selector call page_function))
  /\ (forallb (fun x => bool_decide (x.1.1 ∈ main.pages.*1)) runs = true ->
      Obs.navigation_ok None runs = true)
  /\ (forall i, main.radio_index session = Ok i ->
                main.pages.*1 !! i = Some (main.initial_page session))
  /\ ((main.initial_page session ∉ main.pages.*1) ->
      main.run selector call session selected_page
      = (main.initial_page session, main.Raises ValueError)).
Proof.
  split; [|split; [|split]].
  - apply run_known.
  - assert (Hfrom : forall s,
              main.initial_page s ∈ main.pages.*1 ->
              forallb (fun x => bool_decide (x.1.1 ∈ main.pages.*1)) runs = true ->
              Obs.navigation_ok s runs = true).
    { induction runs as [|[[a sel] c] rest IH]; intros s Hs Hall; [reflexivity|].
      cbn [forallb] in Hall. apply andb_true_iff in Hall as [Ha Hall].
      apply bool_decide_eq_true in Ha. cbn [fst] in Ha. cbn [Obs.navigation_ok].
      destruct (run_known sel c s a Hs Ha) as (page_function & _ & ->).
      assert (Hnext : Obs.navigation_ok (Some a) rest = true)
        by (apply IH; [exact Ha | exact Hall]).
      unfold Obs.calls_ending. destruct sel; [exact Hnext|].
      destruct (c page_function); exact Hnext. }
    apply Hfrom. apply (bool_decide_unpack _). vm_compute. exact I.
  - intros i Hi. unfold main.radio_index in Hi.
    destruct (decide (main.initial_page session ∈ main.pages.*1)) as [Hin|Hin].
    + destruct (list_index_elem _ _ Hin) as (j & Hj & Hlook). congruence.
    + rewrite (list_index_not_elem _ _ Hin) in Hi. discriminate.
  - intros Hcur. unfold main.run, main.radio_index.
    now rewrite (list_index_not_elem _ _ Hcur).
Qed.

End navigation_facts.

Lemma document_selection_valid_witness :
  ("rice.pdf (ffff0000...)" ∈ (render_document_selector.doc_options example_documents).*1
   /\ render_document_selector.select example_documents "rice.pdf (ffff0000...)"
      = Ok "ffff0000-0002")
  /\ (("no such option"
       ∉ (render_document_selector.doc_options example_documents).*1)
      /\ render_document_selector.select example_documents "no such option"
         = Raise (KeyError "no such option"))
  /\ ("ffff0000-0002" ∈ (render_document_selector.doc_options example_documents).*2
      /\ exists i label,
           render_document_selector.current_index example_documents "ffff0000-0002"
           = Ok i
           /\ (render_document_selector.doc_options example_documents).*1 !! i
              = Some label
           /\ render_document_selector.select example_documents label
              = Ok "ffff0000-0002")
  /\ (("ffff0000-0001"
       ∉ (render_document_selector.doc_options example_documents).*2)
      /\ render_document_selector.current_index example_documents "ffff0000-0001"
         = Ok 0)
  /\ (example_documents <> []
      /\ (render_document_selector.doc_options example_documents).*1 <> []).
Proof.
  assert (Hopt : "rice.pdf (ffff0000...)"
                 ∈ (render_document_selector.doc_options example_documents).*1)
    by (apply (bool_decide_unpack _); vm_compute; exact I).
  assert (Hnot : "no such option"
                 ∉ (render_document_selector.doc_options example_documents).*1)
    by (apply (bool_decide_unpack _); vm_compute; exact I).
  assert (Hval : "ffff0000-0002"
                 ∈ (render_document_selector.doc_options example_documents).*2)
    by (apply (bool_decide_unpack _); vm_compute; exact I).
  assert (Hgone : "ffff0000-0001"
                  ∉ (render_document_selector.doc_options example_documents).*2)
    by (apply (bool_decide_unpack _); vm_compute; exact I).
  assert (Hne : example_documents <> []) by discriminate.
  pose proof (document_selection_valid example_documents
                "rice.pdf (ffff0000...)" "ffff0000-0002") as Hrice.
  pose proof (document_selection_valid example_documents
                "no such option" "ffff0000-0001") as Hstale.
  split; [|split; [|split; [|split]]].
  - split; [exact Hopt|].
    destruct (proj1 (proj2 (proj2 Hrice)) Hopt) as (id & doc & Hsel & _).
    rewrite Hsel. vm_compute in Hsel. congruence.
  - split; [exact Hnot|]. exact (proj1 (proj2 (proj2 (proj2 Hstale))) Hnot).
  - split; [exact Hval|].
    exact (proj1 (proj2 (proj2 (proj2 (proj2 Hrice)))) Hval).
  - split; [exact Hgone|].
    exact (proj1 (proj2 (proj2 (proj2 (proj2 (proj2 Hstale))))) Hgone).
  - split; [exact Hne|].
    exact (proj1 (proj2 (proj2 (proj2 (proj2 (proj2 (proj2 Hrice))))) Hne)).
Defined.

Lemma navigation_never_fails_witness :
  ((main.initial_page None ∈ main.pages.*1)
   /\ ("📋 Extracted Traits" ∈ main.pages.*1)
   /\ main.run None
        (fun p => match p with
                  | main.page_extracted_traits => Some "KeyError"
                  | _ => None
                  end)
        None "📋 Extracted Traits"
      = ("📋 Extracted Traits", main.Passes "KeyError"))
  /\ (forallb (fun x => bool_decide (x.1.1 ∈ main.pages.*1)) example_runs = true
      /\ Obs.navigation_ok None example_runs = true)
  /\ (main.radio_index (Some "🔍 Raw Data") = Ok 3
      /\ main.pages.*1 !! 3 = Some (main.initial_page (Some "🔍 Raw Data")))
  /\ ((main.initial_page (Some "Overview") ∉ main.pages.*1)
      /\ main.run (@None string) (fun _ => None) (Some "Overview") "📄 Page Browser"
         = ("Overview", main.Raises ValueError)).
Proof.
  assert (Hnew : main.initial_page None ∈ main.pages.*1)
    by (apply (bool_decide_unpack _); vm_compute; exact I).
  assert (Hsel : "📋 Extracted Traits" ∈ main.pages.*1)
    by (apply (bool_decide_unpack _); vm_compute; exact I).
  assert (Hall : forallb (fun x => bool_decide (x.1.1 ∈ main.pages.*1)) example_runs
                 = true) by (vm_compute; reflexivity).
  assert (Hidx : main.radio_index (Some "🔍 Raw Data") = Ok 3)
    by (vm_compute; reflexivity).
  assert (Hold : main.initial_page (Some "Overview") ∉ main.pages.*1)
    by (apply (bool_decide_unpack _); vm_compute; exact I).
  split; [|split; [|split]].
  - split; [exact Hnew | split; [exact Hsel|]].
    destruct (proj1
      (navigation_never_fails None None
         (fun p => match p with
                   | main.page_extracted_traits => Some "KeyError"
                   | _ => None
                   end)
         "📋 Extracted Traits" []) Hnew Hsel) as (page_function & Hitem & Hrun).
    rewrite Hrun. f_equal.
    assert (Hpage : page_function = main.page_extracted_traits).
    { vm_compute in Hitem. clear Hrun.
      repeat (apply elem_of_cons in Hitem as [Hitem | Hitem];
              [try (inversion Hitem; fail); try (now inversion Hitem)|]).
      inversion Hitem. }
    now rewrite Hpage.
  - split; [exact Hall|].
    exact (proj1 (proj2
      (navigation_never_fails None None (fun _ => None) "Overview" example_runs))
      Hall).
  - split; [exact Hidx|].
    exact (proj1 (proj2 (proj2
      (navigation_never_fails (E := string) (Some "🔍 Raw Data") None (fun _ => None)
         "Overview" []))) 3 Hidx).
  - split; [exact Hold|].
    exact (proj2 (proj2 (proj2
      (navigation_never_fails (Some "Overview") None (fun _ => None)
         "📄 Page Browser" []))) Hold).
Defined.
